(** * infercnvpy.tl._copykat: the copyKAT adapter

    A shallow embedding of [copykat] (src/infercnvpy/tl/_copykat.py) and
    the properties of its data marshalling: worker count, dependency
    probe, dense/sparse conversion, column renaming on the R side, the
    chromosome offset map, the output matrix and the write-back into the
    AnnData object. *)

From Stdlib Require Import ZArith Ascii String DecimalString.
From stdpp Require Import gmap strings list fin_maps.

Local Open Scope string_scope.

(** * Model *)

(** ** Python values, exceptions and results *)

(** What the adapter needs of the objects held in matrices, frames and
    row labels: equality (for [drop_duplicates]), [format] (for the
    f-string), [int] (which may raise) and the zero that [toarray] fills
    in. *)
Class PyValue (V : Type) := {
  py_eq_dec :: EqDecision V;
  py_format : V → string;
  py_int : V → option Z;
  py_zero : V
}.

Inductive exn : Type :=
| ImportError (msg : string)
| NameError (name : string)
| KeyError (labels : list string)
| ValueError (msg : string)
| AttributeError (msg : string)
| RRuntimeError (msg : string).

Inductive result (A : Type) : Type :=
| Ok (a : A)
| Raise (e : exn).
Arguments Ok {A} a.
Arguments Raise {A} e.

#[global] Instance result_ret : MRet result := λ A a, Ok a.
#[global] Instance result_bind : MBind result := λ A B k r,
  match r with Ok a => k a | Raise e => Raise e end.
#[global] Instance result_fmap : FMap result := λ A B f r,
  match r with Ok a => Ok (f a) | Raise e => Raise e end.

(** ** Numpy arrays *)

(** A two-dimensional array: its shape (rows, columns) and its rows.  The
    shape is kept apart from the rows since a 0 x k array has no row to
    read k from. *)
Record ndarray (A : Type) : Type := NDArray {
  shape : nat * nat;
  rows : list (list A)
}.
Arguments NDArray {A} _ _.
Arguments shape {A} _.
Arguments rows {A} _.

Definition ndarray_wf {A} (a : ndarray A) : Prop :=
  length (rows a) = (shape a).1 ∧ Forall (λ r, length r = (shape a).2) (rows a).

(** The array of shape (n, m) whose entry (i, j) is [f i j]. *)
Definition ndarray_init {A} (n m : nat) (f : nat → nat → A) : ndarray A :=
  NDArray (n, m) (map (λ i, map (f i) (seq 0 m)) (seq 0 n)).

(** [a[i, j]] *)
Definition item {A} (a : ndarray A) (i j : nat) : option A :=
  rows a !! i ≫= (.!! j).

(** Column [j] of a list of rows. *)
Definition column {A} (j : nat) (rs : list (list A)) : list A :=
  omap (.!! j) rs.

(** [a.T] *)
Definition T {A} (a : ndarray A) : ndarray A :=
  NDArray ((shape a).2, (shape a).1)
          (map (λ j, column j (rows a)) (seq 0 (shape a).2)).

(** ** Scipy sparse matrices *)

(** A sparse matrix stores a value at some coordinates; every other entry
    is zero. *)
Record spmatrix (A : Type) : Type := SpMatrix {
  sp_shape : nat * nat;
  sp_data : gmap (nat * nat) A
}.
Arguments SpMatrix {A} _ _.
Arguments sp_shape {A} _.
Arguments sp_data {A} _.

(** [s.T] *)
Definition sp_T {A} (s : spmatrix A) : spmatrix A :=
  SpMatrix (prod_swap (sp_shape s)) (kmap prod_swap (sp_data s)).

(** [s.toarray()] *)
Definition toarray {A} (zero : A) (s : spmatrix A) : ndarray A :=
  ndarray_init (sp_shape s).1 (sp_shape s).2
               (λ i j, default zero (sp_data s !! (i, j))).

(** ** Pandas data frames *)

(** A frame: row labels, column labels and the rows of cells. *)
Record DataFrame (V : Type) : Type := mkDataFrame {
  df_index : list V;
  df_columns : list string;
  df_data : list (list V)
}.
Arguments mkDataFrame {V} _ _ _.
Arguments df_index {V} _.
Arguments df_columns {V} _.
Arguments df_data {V} _.

Definition DataFrame_wf {V} (df : DataFrame V) : Prop :=
  length (df_data df) = length (df_index df) ∧
  Forall (λ r, length r = length (df_columns df)) (df_data df).

(** Selection by a boolean mask, as numpy and pandas do it. *)
Fixpoint compress {A} (mask : list bool) (l : list A) : list A :=
  match mask, l with
  | b :: mask, x :: l => if b then x :: compress mask l else compress mask l
  | _, _ => []
  end.

(** [columns.isin(labels)] *)
Definition isin (labels : list string) (cols : list string) : list bool :=
  map (λ c, bool_decide (c ∈ labels)) cols.

(** The labels of [labels] that are no column of the frame. *)
Definition missing_labels (labels cols : list string) : list string :=
  filter (λ l, l ∉ cols) labels.

(** [df.values] *)
Definition df_values {V} (df : DataFrame V) : ndarray V :=
  NDArray (length (df_index df), length (df_columns df)) (df_data df).

(** [df.loc[:, labels]] with a list of labels: every column carrying the
    label, label after label; KeyError when a label is no column. *)
Definition df_loc {V} (labels : list string) (df : DataFrame V)
  : result (DataFrame V) :=
  match missing_labels labels (df_columns df) with
  | [] =>
      let pick {A} (l : list A) : list A :=
        flat_map (λ lab, compress (isin [lab] (df_columns df)) l) labels in
      Ok (mkDataFrame (df_index df) (pick (df_columns df))
                      (map pick (df_data df)))
  | missing => Raise (KeyError missing)
  end.

(** [df.drop(labels, axis=1)]: every column carrying one of the labels
    goes; KeyError when a label is no column. *)
Definition df_drop {V} (labels : list string) (df : DataFrame V)
  : result (DataFrame V) :=
  match missing_labels labels (df_columns df) with
  | [] =>
      let keep := map negb (isin labels (df_columns df)) in
      Ok (mkDataFrame (df_index df) (compress keep (df_columns df))
                      (map (compress keep) (df_data df)))
  | missing => Raise (KeyError missing)
  end.

(** The rows (with their labels) whose cells were not seen before. *)
Fixpoint first_occurrences {V} `{EqDecision V}
    (seen : list (list V)) (rs : list (V * list V)) : list (V * list V) :=
  match rs with
  | [] => []
  | (i, r) :: rs =>
      if decide (r ∈ seen) then first_occurrences seen rs
      else (i, r) :: first_occurrences (r :: seen) rs
  end.

(** [df.drop_duplicates()]: of rows with equal cells the first stays; the
    row labels play no part in the comparison. *)
Definition df_drop_duplicates {V} `{EqDecision V} (df : DataFrame V)
  : DataFrame V :=
  let kept := first_occurrences [] (zip (df_index df) (df_data df)) in
  mkDataFrame kept.*1 (df_columns df) kept.*2.

(** [df.itertuples()]: one tuple per row, the row label first. *)
Definition df_itertuples {V} (df : DataFrame V) : list (list V) :=
  zip_with cons (df_index df) (df_data df).

(** ** The R side *)

(** An R matrix: its cells and its dimnames (NULL is [None]). *)
Record rmatrix (V : Type) : Type := mkRMatrix {
  r_cells : ndarray V;
  r_rownames : option (list string);
  r_colnames : option (list string)
}.
Arguments mkRMatrix {V} _ _ _.
Arguments r_cells {V} _.
Arguments r_rownames {V} _.
Arguments r_colnames {V} _.

(** One invocation of the R function [copykat::copykat], argument by
    argument. *)
Record copykat_call (V : Type) : Type := mkCall {
  rawmat : rmatrix V;
  id_type : string;
  ngene_chr : Z;
  win_size : Z;
  KS_cut : V;
  sam_name : string;
  distance_arg : string;
  norm_cell_names : string;
  n_cores : Z;
  output_seg : bool
}.
Arguments mkCall {V} _ _ _ _ _ _ _ _ _ _.
Arguments rawmat {V} _.
Arguments id_type {V} _.
Arguments ngene_chr {V} _.
Arguments win_size {V} _.
Arguments KS_cut {V} _.
Arguments sam_name {V} _.
Arguments distance_arg {V} _.
Arguments norm_cell_names {V} _.
Arguments n_cores {V} _.
Arguments output_seg {V} _.

(** The objects that live in R's global environment during a call.  Of
    the list that [copykat] returns only its [CNAmat] entry is kept. *)
Inductive rvalue (V : Type) : Type :=
| RMatrix (m : rmatrix V)
| RCharacter (l : list string)
| RString (s : string)
| RInteger (z : Z)
| RNumeric (v : V)
| RDataFrame (df : DataFrame V)
| RCopykatRun (CNAmat : DataFrame V).
Arguments RMatrix {V} m.
Arguments RCharacter {V} l.
Arguments RString {V} s.
Arguments RInteger {V} z.
Arguments RNumeric {V} v.
Arguments RDataFrame {V} df.
Arguments RCopykatRun {V} CNAmat.

(** [stringr::str_replace_all(s, pattern, replacement)] for a pattern that
    matches one literal character, as the regular expression [\.] does
    for the period. *)
Fixpoint str_replace_all (s : string) (c : ascii) (replacement : string)
  : string :=
  match s with
  | EmptyString => EmptyString
  | String a s' =>
      if Ascii.eqb a c then replacement +:+ str_replace_all s' c replacement
      else String a (str_replace_all s' c replacement)
  end.

(** The value R stores for [rownames(x) <- names] (axis 1) or
    [colnames(x) <- names] (axis 2) along an axis of the given extent: a
    vector of length zero is NULL, any other length than the extent is an
    error. *)
Definition r_dimnames (axis : string) (extent : nat) (names : list string)
  : result (option (list string)) :=
  if decide (length names = 0) then Ok None
  else if decide (length names = extent) then Ok (Some names)
  else Raise (RRuntimeError ("length of 'dimnames' [" +:+ axis +:+
                             "] not equal to array extent")).

(** ** The host: everything outside the function *)

Record Host (V : Type) : Type := mkHost {
  os_name : string;
  cpu_count : Z;
  rpy2_installed : bool;
  r_library : list string;
  r_copykat : copykat_call V → string + DataFrame V
}.
Arguments mkHost {V} _ _ _ _ _.
Arguments os_name {V} _.
Arguments cpu_count {V} _.
Arguments rpy2_installed {V} _.
Arguments r_library {V} _.
Arguments r_copykat {V} _.

(** ** AnnData *)

Inductive matrix (V : Type) : Type :=
| Dense (a : ndarray V)
| Sparse (s : spmatrix V).
Arguments Dense {V} a.
Arguments Sparse {V} s.

Record AnnData (V : Type) : Type := mkAnnData {
  X : matrix V;
  layers : gmap string (matrix V);
  obs_index : list string;
  var_index : list string;
  uns : gmap string (gmap string (gmap string Z));
  obsm : gmap string (ndarray V)
}.
Arguments mkAnnData {V} _ _ _ _ _ _.
Arguments X {V} _.
Arguments layers {V} _.
Arguments obs_index {V} _.
Arguments var_index {V} _.
Arguments uns {V} _.
Arguments obsm {V} _.

(** ** State and the monad of the function body *)

(** What a call can change: the caller's AnnData object, R's global
    environment, the invocations of the external routine and the log. *)
Record State (V : Type) : Type := mkState {
  adata : AnnData V;
  globalenv : gmap string (rvalue V);
  r_calls : list (copykat_call V);
  log : list string
}.
Arguments mkState {V} _ _ _ _.
Arguments adata {V} _.
Arguments globalenv {V} _.
Arguments r_calls {V} _.
Arguments log {V} _.

(** A computation returns or raises, and leaves a state either way. *)
Definition M (V A : Type) : Type := State V → result A * State V.

Definition ret {V A} (a : A) : M V A := λ st, (Ok a, st).
Definition raise {V A} (e : exn) : M V A := λ st, (Raise e, st).
Definition bind {V A B} (m : M V A) (k : A → M V B) : M V B := λ st,
  match m st with
  | (Ok a, st') => k a st'
  | (Raise e, st') => (Raise e, st')
  end.
Definition lift {V A} (r : result A) : M V A := λ st, (r, st).
Definition get_state {V} : M V (State V) := λ st, (Ok st, st).
Definition modify {V} (f : State V → State V) : M V unit := λ st, (Ok tt, f st).

Declare Scope py_scope.
Delimit Scope py_scope with py.
Notation "x <- m ;; k" := (bind m (λ x, k))
  (at level 100, m at next level, right associativity) : py_scope.
Notation "m ;; k" := (bind m (λ _, k))
  (at level 100, right associativity) : py_scope.

(** [try: body except ImportError: raise e] *)
Definition try_except_ImportError {V A} (body : M V A) (e : exn) : M V A :=
  λ st,
  match body st with
  | (Raise (ImportError _), st') => (Raise e, st')
  | r => r
  end.

(** ** The function *)

Section copykat.
Context {V : Type} `{!PyValue V}.
Local Open Scope py_scope.

Definition logging_info (msg : string) : M V unit :=
  modify (λ st, mkState (adata st) (globalenv st) (r_calls st) (log st ++ [msg])).

(** [ro.globalenv[name] = v] *)
Definition globalenv_setitem (name : string) (v : rvalue V) : M V unit :=
  modify (λ st, mkState (adata st) (<[name:=v]> (globalenv st)) (r_calls st) (log st)).

(** [ro.globalenv[name]] *)
Definition globalenv_getitem (name : string) : M V (rvalue V) := λ st,
  match globalenv st !! name with
  | Some v => (Ok v, st)
  | None => (Raise (KeyError [name]), st)
  end.

(** [adata.uns[key] = d] and [adata.obsm[key] = a], as plain stores. *)
Definition uns_setitem (key : string) (d : gmap string (gmap string Z))
  : M V unit :=
  modify (λ st,
    let ad := adata st in
    mkState (mkAnnData (X ad) (layers ad) (obs_index ad) (var_index ad)
                       (<[key:=d]> (uns ad)) (obsm ad))
            (globalenv st) (r_calls st) (log st)).

Definition obsm_setitem (key : string) (a : ndarray V) : M V unit :=
  modify (λ st,
    let ad := adata st in
    mkState (mkAnnData (X ad) (layers ad) (obs_index ad) (var_index ad)
                       (uns ad) (<[key:=a]> (obsm ad)))
            (globalenv st) (r_calls st) (log st)).

(** [ad.layers[name]] *)
Definition layers_getitem (ad : AnnData V) (name : string) : M V (matrix V) :=
  match layers ad !! name with
  | Some m => ret m
  | None => raise (KeyError [name])
  end.

(** Reading a name that is bound neither in the function nor in the
    module. *)
Definition unbound_name {A} (name : string) : M V A := raise (NameError name).

(** Lines 73-76: the worker count handed to the external routine. *)
Definition effective_n_jobs (host : Host V) (n_jobs : option Z) : Z :=
  let n_jobs := match n_jobs with None => cpu_count host | Some n => n end in
  if decide (os_name host ≠ "posix") then 1%Z else n_jobs.

(** [from rpy2... import ...] *)
Definition import_rpy2 (host : Host V) : M V unit :=
  if rpy2_installed host then ret tt
  else raise (ImportError "No module named 'rpy2'").

(** [importr(package)] *)
Definition importr (host : Host V) (package : string) : M V unit :=
  if decide (package ∈ r_library host) then ret tt
  else raise (ImportError ("The R package is not installed: " +:+ package)).

(** *** The R script (lines 113-123) *)

Definition r_error {A} (msg : string) : M V A := raise (RRuntimeError msg).

Definition r_get (name : string) : M V (rvalue V) := λ st,
  match globalenv st !! name with
  | Some v => (Ok v, st)
  | None => (Raise (RRuntimeError ("object not found: " +:+ name)), st)
  end.

Definition r_get_matrix (name : string) : M V (rmatrix V) :=
  v <- r_get name ;;
  match v with RMatrix m => ret m | _ => r_error "not a matrix" end.

Definition r_get_character (name : string) : M V (list string) :=
  v <- r_get name ;;
  match v with
  | RCharacter l => ret l
  | RString s => ret [s]
  | _ => r_error "not a character vector"
  end.

Definition r_get_string (name : string) : M V string :=
  v <- r_get name ;;
  match v with RString s => ret s | _ => r_error "not a string" end.

Definition r_get_integer (name : string) : M V Z :=
  v <- r_get name ;;
  match v with RInteger z => ret z | _ => r_error "not an integer" end.

Definition r_get_numeric (name : string) : M V V :=
  v <- r_get name ;;
  match v with RNumeric x => ret x | _ => r_error "not a number" end.

Definition record_call (c : copykat_call V) : M V unit :=
  modify (λ st, mkState (adata st) (globalenv st) (r_calls st ++ [c]) (log st)).

(** [colnames(df) <- names] for names as many as the columns. *)
Definition set_columns (names : list string) (df : DataFrame V) : DataFrame V :=
  mkDataFrame (df_index df) names (df_data df).

Definition rename_columns (df : DataFrame V) : DataFrame V :=
  set_columns (map (λ c, str_replace_all c "." "-") (df_columns df)) df.

Definition r_script (host : Host V) : M V unit :=
  (* rownames(expr_r) <- gene_names *)
  expr_r <- r_get_matrix "expr_r" ;;
  gene_names <- r_get_character "gene_names" ;;
  rn <- lift (r_dimnames "1" (shape (r_cells expr_r)).1 gene_names) ;;
  globalenv_setitem "expr_r"
    (RMatrix (mkRMatrix (r_cells expr_r) rn (r_colnames expr_r))) ;;
  (* colnames(expr_r) <- cell_IDs *)
  expr_r <- r_get_matrix "expr_r" ;;
  cell_IDs <- r_get_character "cell_IDs" ;;
  cn <- lift (r_dimnames "2" (shape (r_cells expr_r)).2 cell_IDs) ;;
  globalenv_setitem "expr_r"
    (RMatrix (mkRMatrix (r_cells expr_r) (r_rownames expr_r) cn)) ;;
  (* copyKAT_run <- copykat(...) *)
  expr_r <- r_get_matrix "expr_r" ;;
  gene_ids <- r_get_string "gene_ids" ;;
  min_gene_chr <- r_get_integer "min_gene_chr" ;;
  segmentation_cut <- r_get_numeric "segmentation_cut" ;;
  s_name <- r_get_string "s_name" ;;
  distance <- r_get_string "distance" ;;
  n_jobs <- r_get_integer "n_jobs" ;;
  let call := mkCall expr_r gene_ids min_gene_chr 25 segmentation_cut s_name
                     distance "" n_jobs false in
  record_call call ;;
  match r_copykat host call with
  | inl msg => r_error msg
  | inr CNAmat =>
      globalenv_setitem "copyKAT_run" (RCopykatRun CNAmat) ;;
      (* copyKAT_result <- copyKAT_run$CNAmat *)
      globalenv_setitem "copyKAT_result" (RDataFrame CNAmat) ;;
      (* colnames(copyKAT_result) <- str_replace_all(colnames(...), "\\.", "-") *)
      globalenv_setitem "copyKAT_result" (RDataFrame (rename_columns CNAmat))
  end.

(** [ro.conversion.rpy2py(v)] to a frame; what is not a data frame has no
    [loc]. *)
Definition rpy2py (v : rvalue V) : M V (DataFrame V) :=
  match v with
  | RDataFrame df => ret df
  | _ => raise (AttributeError "object has no attribute 'loc'")
  end.

(** *** The chromosome offsets (lines 130-137) *)

(** The dict comprehension: each tuple is unpacked into [(pos, chrom)],
    the key is [f"chr{chrom}"] and the value [int(pos)]; a later tuple
    with the same key replaces the value. *)
Fixpoint chr_pos_dict (acc : gmap string Z) (tuples : list (list V))
  : result (gmap string Z) :=
  match tuples with
  | [] => Ok acc
  | [pos; chrom] :: tuples =>
      match py_int pos with
      | Some z => chr_pos_dict (<["chr" +:+ py_format chrom := z]> acc) tuples
      | None => Raise (ValueError "int() cannot convert the row label")
      end
  | _ :: _ => Raise (ValueError "cannot unpack the tuple into (pos, chrom)")
  end.

Definition chr_pos (copyKAT_result : DataFrame V) : result (gmap string Z) :=
  sub ← df_loc ["chrom"] copyKAT_result;
  chr_pos_dict ∅ (df_itertuples (df_drop_duplicates sub)).

Definition chrom_pos (copyKAT_result : DataFrame V)
  : result (gmap string (gmap string Z)) :=
  d ← chr_pos copyKAT_result; mret {[ "chr_pos" := d ]}.

(** *** The output matrix (lines 139-143) *)

Definition metadata_columns : list string := ["chrom"; "chrompos"; "abspos"].

Definition new_cpkat (copyKAT_result : DataFrame V) : result (ndarray V) :=
  df_values <$> df_drop metadata_columns copyKAT_result.

Definition new_cpkat_trans (copyKAT_result : DataFrame V) : result (ndarray V) :=
  T <$> new_cpkat copyKAT_result.

(** *** The arguments and the body *)

Record Args : Type := mkArgs {
  gene_ids : string;
  segmentation_cut : V;
  distance : string;
  s_name : string;
  min_genes_chr : Z;
  key_added : string;
  inplace : bool;
  layer : option string;
  n_jobs : option Z
}.

(** Lines 96-101: the matrix that crosses into R. *)
Definition prepare_expr (expr : matrix V) : ndarray V :=
  match expr with
  | Sparse s => toarray py_zero (sp_T s)
  | Dense a => T a
  end.

Definition copykat (host : Host V) (args : Args) : M V (option (ndarray V)) :=
  let n_jobs := effective_n_jobs host (n_jobs args) in
  try_except_ImportError (import_rpy2 host)
    (ImportError "copyKAT requires rpy2 to be installed. ") ;;
  try_except_ImportError (importr host "copykat" ;; importr host "stringr")
    (ImportError ("copyKAT requires a valid R installation with the following packages: "
                  +:+ "copykat, stringr")) ;;
  logging_info "Preparing R objects" ;;
  expr <- match layer args with
          | None => st <- get_state ;; ret (X (adata st))
          | Some l => tmp_adata <- unbound_name "tmp_adata" ;;
                      layers_getitem tmp_adata l
          end ;;
  globalenv_setitem "expr_r" (RMatrix (mkRMatrix (prepare_expr expr) None None)) ;;
  st <- get_state ;;
  globalenv_setitem "gene_names" (RCharacter (var_index (adata st))) ;;
  globalenv_setitem "cell_IDs" (RCharacter (obs_index (adata st))) ;;
  globalenv_setitem "n_jobs" (RInteger n_jobs) ;;
  globalenv_setitem "gene_ids" (RString (gene_ids args)) ;;
  globalenv_setitem "segmentation_cut" (RNumeric (segmentation_cut args)) ;;
  globalenv_setitem "distance" (RString (distance args)) ;;
  globalenv_setitem "s_name" (RString (s_name args)) ;;
  globalenv_setitem "min_gene_chr" (RInteger (min_genes_chr args)) ;;
  logging_info "Running copyKAT" ;;
  r_script host ;;
  copyKAT_result <- (v <- globalenv_getitem "copyKAT_result" ;; rpy2py v) ;;
  chrom_pos <- lift (chrom_pos copyKAT_result) ;;
  new_cpkat_trans <- lift (new_cpkat_trans copyKAT_result) ;;
  if inplace args then
    uns_setitem (key_added args) chrom_pos ;;
    obsm_setitem ("X_" +:+ key_added args) new_cpkat_trans ;;
    ret None
  else
    ret (Some new_cpkat_trans).

End copykat.

Arguments Args V : clear implicits.
Arguments mkArgs {V} _ _ _ _ _ _ _ _ _.

(** ** A concrete universe of values: integers and strings *)

Inductive pyval : Type :=
| PyInt (z : Z)
| PyStr (s : string).

#[global] Instance pyval_eq_dec : EqDecision pyval.
Proof. solve_decision. Defined.

(** [str(z)] *)
Definition str_of_int (z : Z) : string := NilZero.string_of_int (Z.to_int z).

(** The characters [int()] strips from both ends of an ASCII string. *)
Definition is_space (c : ascii) : bool :=
  let n := nat_of_ascii c in
  ((9 <=? n) && (n <=? 13) || (28 <=? n) && (n <=? 31) || (n =? 32))%nat.

Definition digit_of (c : ascii) : option Z :=
  let n := nat_of_ascii c in
  if ((48 <=? n) && (n <=? 57))%nat then Some (Z.of_nat (n - 48)) else None.

(** Decimal digits, single underscores allowed between two digits. *)
Fixpoint parse_digits (acc : Z) (after_digit : bool) (cs : list ascii)
  : option Z :=
  match cs with
  | [] => if after_digit then Some acc else None
  | c :: cs =>
      match digit_of c with
      | Some d => parse_digits (10 * acc + d) true cs
      | None =>
          if Ascii.eqb c "_" && after_digit then parse_digits acc false cs
          else None
      end
  end.

Fixpoint lstrip (cs : list ascii) : list ascii :=
  match cs with
  | c :: cs' => if is_space c then lstrip cs' else cs
  | [] => []
  end.

(** [int(s)] for an ASCII string [s]; [None] when it raises ValueError. *)
Definition int_of_str (s : string) : option Z :=
  let cs := rev (lstrip (rev (lstrip (list_ascii_of_string s)))) in
  match cs with
  | "-"%char :: cs => Z.opp <$> parse_digits 0 false cs
  | "+"%char :: cs => parse_digits 0 false cs
  | _ => parse_digits 0 false cs
  end.

#[global] Instance pyval_PyValue : PyValue pyval := {|
  py_format v := match v with PyInt z => str_of_int z | PyStr s => s end;
  py_int v := match v with PyInt z => Some z | PyStr s => int_of_str s end;
  py_zero := PyInt 0
|}.


(** ** Vocabulary for the properties *)

(** [wp m Q st]: running [m] from [st] ends in an outcome and a state that
    satisfy [Q]. *)
Definition wp {V A} (m : M V A) (Q : result A → State V → Prop) (st : State V)
  : Prop :=
  Q (m st).1 (m st).2.

(** The state whose AnnData object holds [x] as its [X]. *)
Definition with_X {V} (x : matrix V) (st : State V) : State V :=
  let ad := adata st in
  mkState (mkAnnData x (layers ad) (obs_index ad) (var_index ad) (uns ad) (obsm ad))
          (globalenv st) (r_calls st) (log st).

(** Two states that differ at most in how [X] is stored: all else is
    equal, and both [X] give R the same matrix. *)
Definition same_up_to_X {V} `{!PyValue V} (st1 st2 : State V) : Prop :=
  st2 = with_X (X (adata st2)) st1 ∧
  prepare_expr (X (adata st1)) = prepare_expr (X (adata st2)).

Definition result_rel {A} (R : A → A → Prop) (r1 r2 : result A) : Prop :=
  match r1, r2 with
  | Ok a1, Ok a2 => R a1 a2
  | Raise e1, Raise e2 => e1 = e2
  | _, _ => False
  end.

(** [sim R m1 m2]: from states equal up to [X], [m1] and [m2] raise the
    same exception or return values related by [R], and leave states equal
    up to [X]. *)
Definition sim {V} `{!PyValue V} {A} (R : A → A → Prop) (m1 m2 : M V A) : Prop :=
  ∀ st1 st2, same_up_to_X st1 st2 →
    result_rel R (m1 st1).1 (m2 st2).1 ∧ same_up_to_X (m1 st1).2 (m2 st2).2.

(** ** Concrete inputs *)

(** The result table of the end-to-end scenario: two bins, three cells,
    rows labelled as R labels them. *)
Definition scenario_table : DataFrame pyval :=
  mkDataFrame
    [PyStr "1"; PyStr "2"]
    ["chrom"; "chrompos"; "abspos"; "c1"; "c2"; "c3"]
    [[PyStr "chr1"; PyInt 100; PyInt 100; PyInt 1; PyInt 2; PyInt 3];
     [PyStr "chr2"; PyInt 200; PyInt 500; PyInt 4; PyInt 5; PyInt 6]].

(** A table as copyKAT lays it out: numbered chromosomes, several bins
    per chromosome, a cell whose name R has mangled. *)
Definition binned_table : DataFrame pyval :=
  mkDataFrame
    [PyStr "1"; PyStr "2"; PyStr "3"; PyStr "4"]
    ["chrom"; "chrompos"; "abspos"; "AAA.CAT.1"; "c2"]
    [[PyInt 1; PyInt 10; PyInt 10; PyInt 7; PyInt 8];
     [PyInt 1; PyInt 20; PyInt 20; PyInt 7; PyInt 9];
     [PyInt 2; PyInt 5; PyInt 35; PyInt 6; PyInt 8];
     [PyInt 2; PyInt 9; PyInt 39; PyInt 6; PyInt 9]].

Definition scenario_X : ndarray pyval :=
  NDArray (3, 4)
    [[PyInt 1; PyInt 0; PyInt 0; PyInt 4];
     [PyInt 0; PyInt 6; PyInt 0; PyInt 0];
     [PyInt 9; PyInt 0; PyInt 0; PyInt 12]].

Definition scenario_sparse_X : spmatrix pyval :=
  SpMatrix (3, 4)
    (<[(0, 0) := PyInt 1]> (<[(0, 3) := PyInt 4]> (<[(1, 1) := PyInt 6]>
      (<[(2, 0) := PyInt 9]> (<[(2, 3) := PyInt 12]> ∅))))).

Definition scenario_adata : AnnData pyval :=
  mkAnnData (Dense scenario_X) {[ "counts" := Dense scenario_X ]}
            ["c1"; "c2"; "c3"] ["G1"; "G2"; "G3"; "G4"] ∅ ∅.

Definition scenario_state : State pyval := mkState scenario_adata ∅ [] [].

Definition scenario_args (inplace : bool) (layer : option string)
    (n_jobs : option Z) : Args pyval :=
  mkArgs "S" (PyInt 0) "euclidean" "copykat_result" 5 "cnv" inplace layer n_jobs.

(** A POSIX machine with eight cores, rpy2 and the R packages given, whose
    copyKAT returns the table given. *)
Definition host_with (os : string) (rpy2 : bool) (packages : list string)
    (CNAmat : DataFrame pyval) : Host pyval :=
  mkHost os 8 rpy2 packages (λ _, inr CNAmat).

Definition scenario_host : Host pyval :=
  host_with "posix" true ["copykat"; "stringr"] scenario_table.

(** ** Vocabulary and inputs for the further properties *)

(** The invocation of lines 117-119 for a matrix with the dimnames given. *)
Definition copykat_arguments {V} `{!PyValue V} (host : Host V) (args : Args V)
    (st : State V) (rn cn : option (list string)) : copykat_call V :=
  mkCall (mkRMatrix (prepare_expr (X (adata st))) rn cn)
         (gene_ids args) (min_genes_chr args) 25 (segmentation_cut args)
         (s_name args) (distance args) "" (effective_n_jobs host (n_jobs args))
         false.

(** The names a call binds in R's global environment. *)
Definition r_names : list string :=
  ["expr_r"; "gene_names"; "cell_IDs"; "n_jobs"; "gene_ids";
   "segmentation_cut"; "distance"; "s_name"; "min_gene_chr";
   "copyKAT_run"; "copyKAT_result"].

(** A host like that of the scenario whose copyKAT stops with an error. *)
Definition failing_host : Host pyval :=
  mkHost "posix" 8 true ["copykat"; "stringr"] (λ _, inl "copykat stopped").

(** A table in which a later bin of chromosome 1 carries a label that is
    no number. *)
Definition relabelled_table : DataFrame pyval :=
  mkDataFrame
    [PyStr "1"; PyStr "bin-b"; PyStr "3"]
    ["chrom"; "chrompos"; "abspos"; "c1"]
    [[PyInt 1; PyInt 10; PyInt 10; PyInt 7];
     [PyInt 1; PyInt 20; PyInt 20; PyInt 7];
     [PyInt 2; PyInt 5; PyInt 35; PyInt 6]].

(** A table in which a cell is called "chrom" as well. *)
Definition two_chrom_table : DataFrame pyval :=
  mkDataFrame
    [PyStr "1"]
    ["chrom"; "chrompos"; "abspos"; "chrom"]
    [[PyInt 1; PyInt 10; PyInt 10; PyInt 7]].

(** * Properties *)

(** ** Arrays: transposition *)

Section ndarray_facts.
Context {A : Type}.
Implicit Types (a : ndarray A) (rs : list (list A)).

Lemma column_map_seq (l : list nat) (g : nat → list A) j (h : nat → A) :
  (∀ i, i ∈ l → g i !! j = Some (h i)) →
  column j (map g l) = map h l.
Proof.
  unfold column. induction l as [|i l IH]; intros Hl; simpl; [done|].
  rewrite Hl by left. simpl. f_equal. apply IH. intros i' Hi'. apply Hl. by right.
Qed.

Lemma column_length j rs :
  Forall (λ r, j < length r) rs → length (column j rs) = length rs.
Proof.
  unfold column. induction 1 as [|r rs Hr _ IH]; simpl; [done|].
  destruct (lookup_lt_is_Some_2 r j Hr) as [x ->]. simpl. by f_equal.
Qed.

Lemma column_lookup j rs i :
  Forall (λ r, j < length r) rs →
  column j rs !! i = rs !! i ≫= (.!! j).
Proof.
  unfold column. intros Hrs. revert i.
  induction Hrs as [|r rs Hr _ IH]; intros i; simpl; [done|].
  destruct (lookup_lt_is_Some_2 r j Hr) as [x Hx]. rewrite Hx. simpl.
  destruct i; simpl; [done|apply IH].
Qed.

Lemma T_init n m (f : nat → nat → A) :
  T (ndarray_init n m f) = ndarray_init m n (λ j i, f i j).
Proof.
  unfold T, ndarray_init; simpl. f_equal.
  apply map_ext_in. intros j Hj. apply in_seq in Hj.
  apply column_map_seq. intros i _.
  rewrite list_lookup_fmap, lookup_seq_lt by lia. done.
Qed.

Lemma T_wf a : ndarray_wf a → ndarray_wf (T a).
Proof.
  intros [Hn Hm]. split; simpl.
  - by rewrite length_map, length_seq.
  - apply Forall_forall. intros r Hr.
    apply list_elem_of_fmap in Hr as (j & -> & Hj).
    apply elem_of_seq in Hj. rewrite <- Hn.
    apply column_length. eapply Forall_impl; [exact Hm|].
    simpl. intros r' ->. lia.
Qed.

End ndarray_facts.

(** ** Sparse matrices: densifying commutes with transposition *)

Lemma toarray_sp_T {A} (zero : A) (s : spmatrix A) :
  toarray zero (sp_T s) = T (toarray zero s).
Proof.
  unfold toarray. rewrite T_init. destruct s as [[n m] d]; simpl.
  unfold ndarray_init. f_equal. apply map_ext. intros j.
  apply map_ext. intros i.
  by rewrite <- (lookup_kmap prod_swap d (i, j)).
Qed.


(** ** Frames: masks, [drop] and [values] *)



Lemma compress_none {A} (mask : list bool) (l : list A) :
  (∀ j, mask !! j ≠ Some true) → compress mask l = [].
Proof.
  revert l. induction mask as [|b mask IH]; intros [|x l] Hmask; simpl; try done.
  destruct b; [by destruct (Hmask 0)|].
  apply IH. intros j. apply (Hmask (S j)).
Qed.

Lemma compress_single {A} (mask : list bool) (l : list A) k x :
  (∀ j, mask !! j = Some true → j = k) → mask !! k = Some true →
  length l = length mask → l !! k = Some x →
  compress mask l = [x].
Proof.
  revert l k. induction mask as [|b mask IH]; intros [|y l] k Huniq; simpl; try done.
  destruct k as [|k]; simpl.
  - intros [= ->] _ [= ->]. f_equal. apply compress_none.
    intros j Hj. by specialize (Huniq (S j) Hj).
  - intros Hk [=Hl] Hx. destruct b; [by specialize (Huniq 0 eq_refl)|].
    apply (IH l k); try done. intros j Hj. by specialize (Huniq (S j) Hj) as [= ->].
Qed.

Section frame_facts.
Context {A : Type}.
Implicit Types (mask : list bool) (l r : list A).


Lemma compress_lookup_true mask r k x :
  length r = length mask → mask !! k = Some true → r !! k = Some x →
  x ∈ compress mask r.
Proof.
  revert r k. induction mask as [|b mask IH]; intros [|y r] k; simpl; try done.
  intros [=Hr]. destruct k as [|k]; simpl.
  - intros [= ->] [= ->]. left.
  - intros Hk Hx. destruct b; [right|]; eauto.
Qed.


End frame_facts.


Lemma missing_labels_nil (labels cols : list string) :
  Forall (λ l, l ∈ cols) labels → missing_labels labels cols = [].
Proof.
  unfold missing_labels. induction 1 as [|l labels Hl _ IH]; [done|].
  rewrite filter_cons. by case_decide.
Qed.







(** The scenario: three cells, two bins. *)
Example scenario_output_matrix :
  new_cpkat_trans scenario_table
  = Ok (NDArray (3, 2) [[PyInt 1; PyInt 4]; [PyInt 2; PyInt 5]; [PyInt 3; PyInt 6]]).
Proof. reflexivity. Qed.

(** ** The chromosome offsets *)

Section first_occurrences_facts.
Context {V : Type} `{!EqDecision V}.
Implicit Types (seen : list (list V)) (l : list (V * list V)).

Lemma first_occurrences_elem_of seen l pr :
  pr ∈ first_occurrences seen l → pr ∈ l ∧ pr.2 ∉ seen.
Proof.
  revert seen. induction l as [|[p r] l IH]; intros seen; simpl; [by inversion 1|].
  case_decide as Hr.
  - intros [? ?]%IH. split; [by right|done].
  - intros [->|[Hin Hseen]%IH]%elem_of_cons; [split; [left|done]|].
    split; [by right|]. intros Hs. apply Hseen. by right.
Qed.

Lemma first_occurrences_complete seen l pr :
  pr ∈ l → pr.2 ∉ seen → pr.2 ∈ (first_occurrences seen l).*2.
Proof.
  revert seen. induction l as [|[p r] l IH]; intros seen; simpl; [by inversion 1|].
  intros [->|Hin]%elem_of_cons Hseen.
  - simpl in *. case_decide; [done|]. simpl. left.
  - case_decide as Hr; [by apply IH|]. simpl.
    destruct (decide (pr.2 = r)) as [->|Hne]; [left|].
    right. apply IH; [done|]. by intros [?|?]%elem_of_cons.
Qed.

Lemma first_occurrences_NoDup seen l : NoDup (first_occurrences seen l).*2.
Proof.
  revert seen. induction l as [|[p r] l IH]; intros seen; simpl; [constructor|].
  case_decide as Hr; [apply IH|]. simpl. constructor; [|apply IH].
  intros (pr & -> & [_ Hseen]%first_occurrences_elem_of)%list_elem_of_fmap.
  apply Hseen. left.
Qed.

Lemma first_occurrences_first seen l i p r :
  l !! i = Some (p, r) → r ∉ seen →
  (∀ i' pr', i' < i → l !! i' = Some pr' → pr'.2 ≠ r) →
  (p, r) ∈ first_occurrences seen l.
Proof.
  revert seen i. induction l as [|[p0 r0] l IH]; intros seen i; simpl; [done|].
  destruct i as [|i]; simpl.
  - intros [= -> ->] Hseen _. case_decide; [done|left].
  - intros Hi Hseen Hfirst.
    assert (r0 ≠ r) as Hne by (apply (Hfirst 0 (p0, r0)); [lia|done]).
    assert (∀ i' pr', i' < i → l !! i' = Some pr' → pr'.2 ≠ r) as Hfirst'.
    { intros i' pr' Hlt Hl. apply (Hfirst (S i') pr'); [lia|done]. }
    case_decide; [by eapply IH|]. right. eapply IH; [done| |done].
    by intros [?|?]%elem_of_cons.
Qed.

End first_occurrences_facts.

Section offsets.
Context {V : Type} `{!PyValue V}.
Implicit Types (df : DataFrame V) (m acc : gmap string Z) (pcs : list (V * V)).

Lemma chr_pos_dict_shape acc ts m :
  chr_pos_dict acc ts = Ok m →
  Forall (λ t, ∃ p c, t = [p; c] ∧ is_Some (py_int p)) ts.
Proof.
  revert acc. induction ts as [|t ts IH]; intros acc; simpl; [constructor|].
  destruct t as [|p [|c [|? ?]]]; try done.
  destruct (py_int p) as [z|] eqn:Hz; [|done].
  intros Hm. constructor; [|by eapply IH]. exists p, c. by rewrite Hz.
Qed.

Lemma chr_pos_dict_dom acc pcs m :
  chr_pos_dict acc (map (λ pc, [pc.1; pc.2]) pcs) = Ok m →
  dom m = dom acc ∪ list_to_set (map (λ pc, "chr" +:+ py_format pc.2) pcs).
Proof.
  revert acc. induction pcs as [|[p c] pcs IH]; intros acc; simpl.
  - intros [= ->]. by rewrite (right_id_L ∅ (∪)).
  - destruct (py_int p) as [z|]; [|done]. intros Hm%IH.
    rewrite Hm, dom_insert_L.
    by rewrite (comm_L (∪) {[_]} (dom acc)), (assoc_L (∪)).
Qed.

Lemma chr_pos_dict_fresh acc pcs m key :
  chr_pos_dict acc (map (λ pc, [pc.1; pc.2]) pcs) = Ok m →
  key ∉ map (λ pc, "chr" +:+ py_format pc.2) pcs →
  m !! key = acc !! key.
Proof.
  revert acc. induction pcs as [|[p c] pcs IH]; intros acc; simpl.
  - by intros [= ->].
  - destruct (py_int p) as [z|]; [|done]. intros Hm Hkey.
    apply not_elem_of_cons in Hkey as [Hne Hkey].
    rewrite (IH _ Hm Hkey). by apply lookup_insert_ne.
Qed.

Lemma chr_pos_dict_lookup acc pcs m p c :
  chr_pos_dict acc (map (λ pc, [pc.1; pc.2]) pcs) = Ok m →
  NoDup (map (λ pc, "chr" +:+ py_format pc.2) pcs) →
  (p, c) ∈ pcs →
  m !! ("chr" +:+ py_format c) = py_int p.
Proof.
  revert acc. induction pcs as [|[p0 c0] pcs IH]; intros acc; simpl; [by inversion 3|].
  destruct (py_int p0) as [z|] eqn:Hz; [|done].
  intros Hm [Hfresh Hnodup]%NoDup_cons [[= -> ->]|Hin]%elem_of_cons.
  - rewrite (chr_pos_dict_fresh _ _ _ _ Hm Hfresh), Hz. apply lookup_insert_eq.
  - by eapply IH.
Qed.


Lemma two_tuples_pairs (kept : list (V * list V)) :
  Forall (λ t, ∃ p c, t = [p; c] ∧ is_Some (py_int p)) (uncurry cons <$> kept) →
  ∃ pcs, kept = map (λ pc, (pc.1, [pc.2])) pcs.
Proof.
  induction kept as [|[p r] kept IH]; [by exists []|].
  rewrite fmap_cons. intros [(p' & c & [= -> ->] & _) Hshape]%Forall_cons.
  destruct (IH Hshape) as [pcs ->]. by exists ((p', c) :: pcs).
Qed.

(** What [df.loc[:, ["chrom"]]] yields when column [k] is labelled so:
    the frame exists, keeps the row labels, and each of its rows contains
    the row's cell of column [k]. *)
Lemma df_loc_chrom df k :
  DataFrame_wf df → df_columns df !! k = Some "chrom" →
  ∃ sub, df_loc ["chrom"] df = Ok sub ∧
    df_index sub = df_index df ∧
    Forall2 (λ r r', ∃ x, r !! k = Some x ∧ x ∈ r') (df_data df) (df_data sub).
Proof.
  intros [Hn Hm] Hk. unfold df_loc.
  rewrite missing_labels_nil
    by (repeat constructor; by eapply list_elem_of_lookup_2).
  eexists. split; [reflexivity|]. split; [done|]. simpl.
  apply Forall2_fmap_r, Forall_Forall2_diag.
  eapply Forall_impl; [exact Hm|]. simpl. intros r Hr.
  destruct (lookup_lt_is_Some_2 r k) as [x Hx].
  { rewrite Hr. by eapply lookup_lt_Some. }
  exists x. split; [done|]. rewrite app_nil_r.
  apply (compress_lookup_true _ r k x); [| |done].
  - unfold isin. by rewrite length_map.
  - unfold isin. by rewrite list_lookup_fmap, Hk.
Qed.

(** When the dictionary is built, the tuples it was built from are the
    pairs (row label, chromosome cell) of the first occurrences. *)
Lemma chr_pos_pairs df k m :
  DataFrame_wf df → df_columns df !! k = Some "chrom" →
  chr_pos df = Ok m →
  ∃ pcs,
    chr_pos_dict ∅ (map (λ pc, [pc.1; pc.2]) pcs) = Ok m ∧
    NoDup pcs.*2 ∧
    (∀ c, c ∈ pcs.*2 ↔ c ∈ column k (df_data df)) ∧
    (∀ i p c, df_index df !! i = Some p → column k (df_data df) !! i = Some c →
              (∀ i', i' < i → column k (df_data df) !! i' ≠ Some c) →
              (p, c) ∈ pcs).
Proof.
  intros Hwf Hk. destruct (df_loc_chrom df k Hwf Hk) as (sub & Hsub & Hidx & Hrows).
  unfold chr_pos. rewrite Hsub. simpl.
  unfold df_itertuples, df_drop_duplicates. simpl.
  rewrite zip_with_fst_snd, Hidx.
  set (l := zip (df_index df) (df_data sub)).
  set (kept := first_occurrences [] l).
  intros Hm. pose proof (chr_pos_dict_shape _ _ _ Hm) as Hshape.
  (* every kept row is a single chromosome cell *)
  destruct (two_tuples_pairs kept Hshape) as [pcs Hpcs].
  destruct Hwf as [Hn Hm'].
  assert (length (df_data sub) = length (df_index df)) as Hlen.
  { rewrite <- Hn. symmetry. by eapply Forall2_length. }
  (* hence so is every row of the selected frame *)
  assert (Forall2 (λ r r', ∃ x, r !! k = Some x ∧ r' = [x])
                  (df_data df) (df_data sub)) as Hsingle.
  { assert (∀ r', r' ∈ df_data sub → ∃ c, r' = [c]) as Hall.
    { intros r' Hr'.
      assert (r' ∈ l.*2) as (pr & -> & Hpr)%list_elem_of_fmap
        by (unfold l; rewrite snd_zip by lia; done).
      apply (first_occurrences_complete []) in Hpr; [|apply not_elem_of_nil].
      fold kept in Hpr. rewrite Hpcs in Hpr.
      apply list_elem_of_fmap in Hpr as (? & -> & (pc & -> & _)%list_elem_of_fmap).
      by eexists. }
    clear -Hrows Hall. induction Hrows as [|r r' rs rs' (x & Hx & Hin) _ IH];
      constructor.
    - exists x. split; [done|]. destruct (Hall r') as [c ->]; [left|].
      by apply list_elem_of_singleton in Hin as ->.
    - apply IH. intros r'' ?. apply Hall. by right. }
  assert (df_data sub = map (λ c, [c]) (column k (df_data df))) as Hpicked.
  { clear -Hsingle. unfold column.
    induction Hsingle as [|r r' rs rs' (x & Hx & ->) _ IH]; simpl; [done|].
    rewrite Hx. simpl. by f_equal. }
  assert (length (column k (df_data df)) = length (df_index df)) as Hcol.
  { rewrite <- Hlen, Hpicked. by rewrite length_map. }
  exists pcs. split; [|split; [|split]].
  - rewrite <- Hm. f_equal. rewrite Hpcs. clear.
    induction pcs as [|[p c] pcs IH]; simpl; [done|]. f_equal. exact IH.
  - pose proof (first_occurrences_NoDup [] l) as Hnd. fold kept in Hnd.
    assert (kept.*2 = (λ c, [c]) <$> pcs.*2) as Hsnd.
    { rewrite Hpcs. clear.
      induction pcs as [|[p c] pcs IH]; simpl; [done|]. f_equal. exact IH. }
    rewrite Hsnd in Hnd. by apply NoDup_fmap_1 in Hnd.
  - intros c. split.
    + intros (pc & -> & Hpc)%list_elem_of_fmap.
      assert ((pc.1, [pc.2]) ∈ kept) as [Hin _]%first_occurrences_elem_of
        by (rewrite Hpcs; by apply (list_elem_of_fmap_2 (λ pc, (pc.1, [pc.2])))).
      apply elem_of_zip_r in Hin. rewrite Hpicked in Hin.
      by apply list_elem_of_fmap in Hin as (c & [= ->] & Hc).
    + intros Hc.
      assert ([c] ∈ l.*2) as (pr & Hpr & Hin)%list_elem_of_fmap.
      { unfold l. rewrite snd_zip by lia. rewrite Hpicked.
        by apply (list_elem_of_fmap_2 (λ c, [c])). }
      apply (first_occurrences_complete []) in Hin; [|apply not_elem_of_nil].
      fold kept in Hin. rewrite <- Hpr, Hpcs in Hin.
      apply list_elem_of_fmap in Hin as (? & Heq & (pc & -> & Hin)%list_elem_of_fmap).
      simpl in Heq. injection Heq as ->. by apply list_elem_of_fmap_2.
  - intros i p c Hp Hc Hfirst.
    assert ((p, [c]) ∈ kept) as Hin.
    { apply (first_occurrences_first [] l i); [|apply not_elem_of_nil|].
      - unfold l. apply lookup_zip_with_Some. exists p, [c].
        split; [done|]. split; [done|]. by rewrite Hpicked, list_lookup_fmap, Hc.
      - intros i' [p' r'] Hlt Hl. unfold l in Hl.
        apply lookup_zip_with_Some in Hl as (? & ? & [= <- <-] & _ & Hr').
        rewrite Hpicked, list_lookup_fmap in Hr'. simpl.
        destruct (column k (df_data df) !! i') as [c'|] eqn:Hc'; [|done].
        injection Hr' as <-. intros [= ->]. by apply (Hfirst i'). }
    rewrite Hpcs in Hin.
    by apply list_elem_of_fmap in Hin as ([p' c'] & [= -> ->] & Hin).
Qed.

Lemma chr_key_inj (a b : string) : "chr" +:+ a = "chr" +:+ b → a = b.
Proof.
  intros H.
  change (String "c" (String "h" (String "r" a)) =
          String "c" (String "h" (String "r" b))) in H.
  by injection H.
Qed.

Lemma chr_pos_keys df k m :
  DataFrame_wf df → df_columns df !! k = Some "chrom" → chr_pos df = Ok m →
  dom m = list_to_set ((λ c, "chr" +:+ py_format c) <$> column k (df_data df)).
Proof.
  intros Hwf Hk Hm.
  destruct (chr_pos_pairs df k m Hwf Hk Hm) as (pcs & Hdict & _ & Hcol & _).
  rewrite (chr_pos_dict_dom _ _ _ Hdict), dom_empty_L, (left_id_L ∅ (∪)).
  apply set_eq. intros key. rewrite !elem_of_list_to_set. split.
  - intros ([p c] & -> & Hpc)%list_elem_of_fmap. simpl.
    apply (list_elem_of_fmap_2 (λ c, "chr" +:+ py_format c)), Hcol.
    by apply (list_elem_of_fmap_2 snd) in Hpc.
  - intros (c & -> & ([p c'] & -> & Hpc)%Hcol%list_elem_of_fmap)%list_elem_of_fmap.
    by apply (list_elem_of_fmap_2 (λ pc, "chr" +:+ py_format pc.2)) in Hpc.
Qed.

Lemma chr_pos_first_occurrence df k m :
  DataFrame_wf df → df_columns df !! k = Some "chrom" → chr_pos df = Ok m →
  (∀ c c', c ∈ column k (df_data df) → c' ∈ column k (df_data df) →
           py_format c = py_format c' → c = c') →
  ∀ i p c,
    df_index df !! i = Some p → column k (df_data df) !! i = Some c →
    (∀ i', i' < i → column k (df_data df) !! i' ≠ Some c) →
    m !! ("chr" +:+ py_format c) = py_int p ∧ is_Some (py_int p).
Proof.
  intros Hwf Hk Hm Hinj i p c Hp Hc Hfirst.
  destruct (chr_pos_pairs df k m Hwf Hk Hm) as (pcs & Hdict & Hnd & Hcol & Hin).
  specialize (Hin i p c Hp Hc Hfirst).
  assert (m !! ("chr" +:+ py_format c) = py_int p) as Hlookup.
  { apply (chr_pos_dict_lookup ∅ pcs); [done| |done].
    assert (map (λ pc, "chr" +:+ py_format pc.2) pcs
            = (λ c, "chr" +:+ py_format c) <$> pcs.*2) as ->.
    { clear. induction pcs as [|[p c] pcs IH]; simpl; [done|]. f_equal. exact IH. }
    apply NoDup_fmap_2_strong; [|done].
    intros c1 c2 Hc1%Hcol Hc2%Hcol Heq%chr_key_inj. by apply Hinj. }
  split; [done|].
  apply chr_pos_dict_shape in Hdict.
  rewrite Forall_forall in Hdict.
  destruct (Hdict [p; c]) as (? & ? & [= <- <-] & Hint); [|done].
  by apply (list_elem_of_fmap_2 (λ pc, [pc.1; pc.2])) in Hin.
Qed.

Lemma chr_pos_dict_total acc ts :
  Forall (λ t, ∃ p c, t = [p; c] ∧ is_Some (py_int p)) ts →
  ∃ m, chr_pos_dict acc ts = Ok m.
Proof.
  intros Hts. revert acc.
  induction Hts as [|t ts (p & c & -> & [z Hz]) _ IH]; intros acc; simpl.
  - by exists acc.
  - rewrite Hz. apply IH.
Qed.

(** The dictionary is built when one column is labelled "chrom" and
    [int] accepts every row label. *)
Lemma chr_pos_total df k :
  DataFrame_wf df → df_columns df !! k = Some "chrom" →
  (∀ j, df_columns df !! j = Some "chrom" → j = k) →
  Forall (λ p, is_Some (py_int p)) (df_index df) →
  ∃ m, chr_pos df = Ok m.
Proof.
  intros [Hn Hm] Hk Huniq Hint. unfold chr_pos, df_loc.
  rewrite missing_labels_nil
    by (repeat constructor; by eapply list_elem_of_lookup_2).
  simpl. apply chr_pos_dict_total.
  unfold df_itertuples, df_drop_duplicates. simpl.
  rewrite zip_with_fst_snd. apply Forall_fmap, Forall_forall.
  intros [p r] [Hin _]%first_occurrences_elem_of. simpl.
  pose proof (elem_of_zip_l _ _ _ _ Hin) as Hp.
  apply elem_of_zip_r, list_elem_of_fmap in Hin as (r0 & -> & Hr0).
  rewrite Forall_forall in Hm. rewrite Forall_forall in Hint.
  destruct (lookup_lt_is_Some_2 r0 k) as [x Hx].
  { rewrite (Hm r0 Hr0). by eapply lookup_lt_Some. }
  exists p, x. split; [|by apply Hint].
  rewrite app_nil_r. f_equal. apply (compress_single _ _ k); [| | |done].
  - unfold isin. intros j. rewrite list_lookup_fmap.
    destruct (df_columns df !! j) as [c|] eqn:Hc; simpl; [|done].
    intros [= Hin%bool_decide_eq_true]. apply list_elem_of_singleton in Hin as ->.
    by apply Huniq.
  - unfold isin. by rewrite list_lookup_fmap, Hk.
  - unfold isin. by rewrite length_map, (Hm r0 Hr0).
Qed.

End offsets.

(** C2 (as amended). For a result table with one column labelled "chrom",
    row labels that [int] accepts and chromosome cells that differ when
    their text differs, the chromosome offset map is built and pairs, for
    each distinct cell of the chromosome column, the key "chr" followed by
    the cell's text with the row label, cast to integer, of the first row
    that carries the cell; the absolute-position column plays no part.
    For the two-row table of the scenario (rows labelled "1" and "2",
    chromosomes "chr1" and "chr2") the map is {"chrchr1": 1, "chrchr2": 2}. *)
Theorem chr_pos_maps_prefixed_chromosome_to_first_row_label :
  (∀ (V : Type) (HV : PyValue V) (df : DataFrame V) (k : nat),
     DataFrame_wf df →
     (∀ j, df_columns df !! j = Some "chrom" ↔ j = k) →
     Forall (λ p, is_Some (py_int p)) (df_index df) →
     (∀ c c', c ∈ column k (df_data df) → c' ∈ column k (df_data df) →
              py_format c = py_format c' → c = c') →
     ∃ m, chr_pos df = Ok m ∧
       ∀ i p c,
         df_index df !! i = Some p → column k (df_data df) !! i = Some c →
         (∀ i', i' < i → column k (df_data df) !! i' ≠ Some c) →
         m !! ("chr" +:+ py_format c) = py_int p) ∧
  chr_pos scenario_table = Ok {[ "chrchr1" := 1%Z; "chrchr2" := 2%Z ]}.
Proof.
  split.
  - intros V HV df k Hwf Hk Hint Hinj.
    assert (df_columns df !! k = Some "chrom") as Hk' by by apply Hk.
    destruct (chr_pos_total df k Hwf Hk') as [m Hm]; [by intros j ?%Hk|done|].
    exists m. split; [done|]. intros i p c Hp Hc Hfirst.
    by apply (chr_pos_first_occurrence df k m Hwf Hk' Hm Hinj i p c).
  - vm_compute. reflexivity.
Qed.

Lemma chr_pos_maps_prefixed_chromosome_to_first_row_label_witness :
  ∃ m, chr_pos binned_table = Ok m ∧
    ∀ i p c,
      df_index binned_table !! i = Some p →
      column 0 (df_data binned_table) !! i = Some c →
      (∀ i', i' < i → column 0 (df_data binned_table) !! i' ≠ Some c) →
      m !! ("chr" +:+ py_format c) = py_int p.
Proof.
  apply (proj1 chr_pos_maps_prefixed_chromosome_to_first_row_label
           pyval _ binned_table 0%nat).
  - split; [reflexivity|repeat constructor].
  - intros j. split; [|by intros ->].
    destruct j as [|[|[|[|[|j]]]]]; vm_compute; congruence.
  - repeat constructor; vm_compute; by eexists.
  - intros c c' Hc Hc'. vm_compute in Hc, Hc'.
    repeat (apply elem_of_cons in Hc as [->|Hc]);
      repeat (apply elem_of_cons in Hc' as [->|Hc']);
      try (by apply not_elem_of_nil in Hc); try (by apply not_elem_of_nil in Hc');
      vm_compute; congruence.
Defined.

(** The scenario shows C2 false as the specification states it: the keys
    carry a second "chr" and the values are row labels, not absolute
    positions. *)
Lemma chr_pos_scenario_is_not_the_stated_map :
  chr_pos scenario_table = Ok {[ "chrchr1" := 1%Z; "chrchr2" := 2%Z ]} ∧
  chr_pos scenario_table ≠ Ok {[ "chr1" := 100%Z; "chr2" := 500%Z ]}.
Proof.
  assert (chr_pos scenario_table = Ok {[ "chrchr1" := 1%Z; "chrchr2" := 2%Z ]})
    as E by (vm_compute; reflexivity).
  split; [exact E|]. rewrite E. intros H. vm_compute in H. discriminate H.
Qed.

(** C3 (as amended). Whenever the chromosome offset map is built, its
    keys are exactly the strings "chr" followed by the text of a cell of
    the chromosome column; no key appears twice, every value is an integer,
    and the map is stored under "chr_pos".  It is built when one column is
    labelled "chrom" and [int] accepts every row label. *)
Theorem chr_pos_key_set {V} `{!PyValue V} (df : DataFrame V) (k : nat) :
  DataFrame_wf df → df_columns df !! k = Some "chrom" →
  (∀ m : gmap string Z, chr_pos df = Ok m →
     dom m = list_to_set ((λ c, "chr" +:+ py_format c) <$> column k (df_data df)) ∧
     NoDup (map_to_list m).*1 ∧
     chrom_pos df = Ok {[ "chr_pos" := m ]}) ∧
  ((∀ j, df_columns df !! j = Some "chrom" → j = k) →
   Forall (λ p, is_Some (py_int p)) (df_index df) →
   ∃ m, chr_pos df = Ok m).
Proof.
  intros Hwf Hk. split.
  - intros m Hm. split; [by eapply chr_pos_keys|].
    split; [apply NoDup_fst_map_to_list|].
    unfold chrom_pos. by rewrite Hm.
  - by apply chr_pos_total.
Qed.

Lemma chr_pos_key_set_witness :
  ∃ m : gmap string Z,
    chr_pos binned_table = Ok m ∧
    dom m = list_to_set ((λ c, "chr" +:+ py_format c) <$>
                         column 0 (df_data binned_table)) ∧
    NoDup (map_to_list m).*1 ∧
    chrom_pos binned_table = Ok {[ "chr_pos" := m ]}.
Proof.
  destruct (chr_pos_key_set binned_table 0) as [Hkeys Hbuilt].
  - split; [reflexivity|repeat constructor].
  - reflexivity.
  - destruct Hbuilt as [m Hm].
    + intros j. destruct j as [|[|[|[|[|j]]]]]; vm_compute; congruence.
    + repeat constructor; vm_compute; by eexists.
    + exists m. split; [exact Hm|]. by apply Hkeys.
Defined.

(** The scenario shows C3 false as the specification states it: "chr1" is
    a label of the chromosome column and no key of the map. *)
Lemma chr_pos_keys_are_not_the_column_labels :
  ∃ m, chr_pos scenario_table = Ok m ∧
       dom m ≠ list_to_set (py_format <$> column 0 (df_data scenario_table)).
Proof.
  exists {[ "chrchr1" := 1%Z; "chrchr2" := 2%Z ]}.
  split; [vm_compute; reflexivity|]. intros H.
  assert ("chr1" ∈ dom ({[ "chrchr1" := 1%Z; "chrchr2" := 2%Z ]} : gmap string Z))
    as [z Hz]%elem_of_dom.
  { rewrite H. apply elem_of_list_to_set. vm_compute. left. }
  vm_compute in Hz. discriminate Hz.
Qed.

(** ** The R side: column labels *)

Lemma str_replace_all_get (s : string) (k : nat) :
  String.get k (str_replace_all s "." "-") =
  (λ a, if Ascii.eqb a "." then "-"%char else a) <$> String.get k s.
Proof.
  revert k. induction s as [|a s IH]; intros k; simpl; [done|].
  destruct (Ascii.eqb a ".") eqn:Ea; destruct k as [|k]; simpl;
    rewrite ?Ea; try done; apply IH.
Qed.

Lemma str_replace_all_no_period (s : string) :
  (∀ k, String.get k s ≠ Some "."%char) → str_replace_all s "." "-" = s.
Proof.
  intros Hs. apply String.get_correct. intros k.
  rewrite str_replace_all_get.
  destruct (String.get k s) as [a|] eqn:Ea; simpl; [|done].
  destruct (Ascii.eqb_spec a "."); [|done]. subst a. by destruct (Hs k).
Qed.

(** ** Runs of the function body *)

Section runs.
Context {V : Type} `{!PyValue V}.
Implicit Types (host : Host V) (args : Args V) (st : State V).

Lemma wp_run {A} (m : M V A) (Q : result A → State V → Prop) st r st' :
  wp m Q st → m st = (r, st') → Q r st'.
Proof. unfold wp. intros HQ Hrun. by rewrite Hrun in HQ. Qed.

Lemma wp_bind {A B} (m : M V A) (k : A → M V B) Q st :
  wp m (λ r st', match r with
                 | Ok a => wp (k a) Q st'
                 | Raise e => Q (Raise e) st'
                 end) st →
  wp (bind m k) Q st.
Proof. unfold wp, bind. by destruct (m st) as [[a|e] st']. Qed.

Lemma wp_ret {A} (a : A) (Q : result A → State V → Prop) st :
  Q (Ok a) st → wp (ret a) Q st.
Proof. done. Qed.

Lemma wp_raise {A} e (Q : result A → State V → Prop) st :
  Q (Raise e) st → wp (raise e) Q st.
Proof. done. Qed.

Lemma wp_lift {A} (r : result A) (Q : result A → State V → Prop) st :
  Q r st → wp (lift r) Q st.
Proof. done. Qed.

Lemma wp_modify f (Q : result unit → State V → Prop) st :
  Q (Ok tt) (f st) → wp (modify f) Q st.
Proof. done. Qed.

Lemma wp_get_state (Q : result (State V) → State V → Prop) st :
  Q (Ok st) st → wp get_state Q st.
Proof. done. Qed.

Lemma wp_try {A} (body : M V A) e (Q : result A → State V → Prop) st :
  wp body (λ r st', match r with
                    | Raise (ImportError _) => Q (Raise e) st'
                    | _ => Q r st'
                    end) st →
  wp (try_except_ImportError body e) Q st.
Proof.
  unfold wp, try_except_ImportError. by destruct (body st) as [[a|[]] st'].
Qed.

Lemma wp_r_get name (Q : result (rvalue V) → State V → Prop) st :
  match globalenv st !! name with
  | Some v => Q (Ok v) st
  | None => Q (Raise (RRuntimeError ("object not found: " +:+ name))) st
  end →
  wp (r_get name) Q st.
Proof. unfold wp, r_get. by destruct (globalenv st !! name). Qed.

Lemma wp_globalenv_getitem name (Q : result (rvalue V) → State V → Prop) st :
  match globalenv st !! name with
  | Some v => Q (Ok v) st
  | None => Q (Raise (KeyError [name])) st
  end →
  wp (globalenv_getitem name) Q st.
Proof. unfold wp, globalenv_getitem. by destruct (globalenv st !! name). Qed.

Lemma chrom_pos_Ok (df : DataFrame V) d :
  chrom_pos df = Ok d → ∃ m, chr_pos df = Ok m ∧ d = {[ "chr_pos" := m ]}.
Proof.
  unfold chrom_pos. destruct (chr_pos df) as [m|]; [|done].
  intros [= <-]. by exists m.
Qed.

End runs.

(** One step of a run: a rule for the statement at the head, or a case
    split on what the run branches on. *)
Ltac wp_rule :=
  lazymatch goal with
  | |- wp (bind _ _) _ _ => apply wp_bind
  | |- wp (ret _) _ _ => apply wp_ret
  | |- wp (raise _) _ _ => apply wp_raise
  | |- wp (lift _) _ _ => apply wp_lift
  | |- wp (modify _) _ _ => apply wp_modify
  | |- wp get_state _ _ => apply wp_get_state
  | |- wp (try_except_ImportError _ _) _ _ => apply wp_try
  | |- wp (r_get _) _ _ => apply wp_r_get
  | |- wp (globalenv_getitem _) _ _ => apply wp_globalenv_getitem
  | |- wp (logging_info _) _ _ => unfold logging_info
  | |- wp (globalenv_setitem _ _) _ _ => unfold globalenv_setitem
  | |- wp (uns_setitem _ _) _ _ => unfold uns_setitem
  | |- wp (obsm_setitem _ _) _ _ => unfold obsm_setitem
  | |- wp (record_call _) _ _ => unfold record_call
  | |- wp (layers_getitem _ _) _ _ => unfold layers_getitem
  | |- wp (unbound_name _) _ _ => unfold unbound_name
  | |- wp (r_error _) _ _ => unfold r_error
  | |- wp (import_rpy2 _) _ _ => unfold import_rpy2
  | |- wp (importr _ _) _ _ => unfold importr
  | |- wp (rpy2py _) _ _ => unfold rpy2py
  | |- wp (r_get_matrix _) _ _ => unfold r_get_matrix
  | |- wp (r_get_character _) _ _ => unfold r_get_character
  | |- wp (r_get_string _) _ _ => unfold r_get_string
  | |- wp (r_get_integer _) _ _ => unfold r_get_integer
  | |- wp (r_get_numeric _) _ _ => unfold r_get_numeric
  | |- wp (r_script _) _ _ => unfold r_script
  | |- wp (copykat _ _) _ _ => unfold copykat
  end.

Ltac wp_simpl :=
  cbn beta iota zeta delta
    [adata globalenv r_calls log fst snd X layers obs_index var_index uns obsm
     r_cells r_rownames r_colnames with_X];
  rewrite ?lookup_insert_eq;
  repeat (rewrite lookup_insert_ne by discriminate; rewrite ?lookup_insert_eq).

Ltac wp_step :=
  lazymatch goal with
  | |- wp (match ?x with _ => _ end) _ _ => destruct x eqn:?
  | |- wp _ _ _ => wp_rule
  | |- match ?x with _ => _ end => destruct x eqn:?
  end.

(** Run to the end of every path; [tac] closes the paths that the
    hypotheses exclude as soon as they open. *)
Tactic Notation "wp_go" "with" tactic3(tac) :=
  repeat (wp_step; wp_simpl; try solve [tac]).
Tactic Notation "wp_go" := wp_go with fail.

Section run_facts.
Context {V : Type} `{!PyValue V}.
Implicit Types (host : Host V) (args : Args V) (st : State V).

(** What a run leaves behind, path by path. *)
Lemma copykat_run host args st :
  wp (copykat host args)
     (λ r st',
        match r with
        | Raise e =>
            adata st' = adata st ∧
            (r_calls st' = r_calls st ∨
             ∃ call, r_calls st' = (r_calls st ++ [call])%list ∧
                     n_cores call = effective_n_jobs host (n_jobs args))
        | Ok ret =>
            ∃ call CNAmat m out,
              layer args = None ∧
              r_calls st' = (r_calls st ++ [call])%list ∧
              n_cores call = effective_n_jobs host (n_jobs args) ∧
              r_cells (rawmat call) = prepare_expr (X (adata st)) ∧
              r_copykat host call = inr CNAmat ∧
              globalenv st' !! "copyKAT_result"
                = Some (RDataFrame (rename_columns CNAmat)) ∧
              chr_pos (rename_columns CNAmat) = Ok m ∧
              new_cpkat_trans (rename_columns CNAmat) = Ok out ∧
              if inplace args then
                ret = None ∧
                adata st' =
                  mkAnnData (X (adata st)) (layers (adata st))
                    (obs_index (adata st)) (var_index (adata st))
                    (<[key_added args := {[ "chr_pos" := m ]}]> (uns (adata st)))
                    (<["X_" +:+ key_added args := out]> (obsm (adata st)))
              else
                ret = Some out ∧ adata st' = adata st
        end) st.
Proof.
  wp_go.
  all: try (split; [by destruct (adata st)|]).
  all: try (left; reflexivity).
  all: try (right; eexists; split; reflexivity).
  all: match goal with H : chrom_pos _ = Ok _ |- _ =>
         apply chrom_pos_Ok in H as (m & Hm & ->) end.
  all: do 4 eexists; repeat (split; [done|]); done.
Qed.

Lemma copykat_outcome host args st r st' :
  copykat host args st = (r, st') →
  match r with
  | Raise e =>
      adata st' = adata st ∧
      (r_calls st' = r_calls st ∨
       ∃ call, r_calls st' = (r_calls st ++ [call])%list ∧
               n_cores call = effective_n_jobs host (n_jobs args))
  | Ok ret =>
      ∃ call CNAmat m out,
        layer args = None ∧
        r_calls st' = (r_calls st ++ [call])%list ∧
        n_cores call = effective_n_jobs host (n_jobs args) ∧
        r_cells (rawmat call) = prepare_expr (X (adata st)) ∧
        r_copykat host call = inr CNAmat ∧
        globalenv st' !! "copyKAT_result"
          = Some (RDataFrame (rename_columns CNAmat)) ∧
        chr_pos (rename_columns CNAmat) = Ok m ∧
        new_cpkat_trans (rename_columns CNAmat) = Ok out ∧
        if inplace args then
          ret = None ∧
          adata st' =
            mkAnnData (X (adata st)) (layers (adata st))
              (obs_index (adata st)) (var_index (adata st))
              (<[key_added args := {[ "chr_pos" := m ]}]> (uns (adata st)))
              (<["X_" +:+ key_added args := out]> (obsm (adata st)))
        else
          ret = Some out ∧ adata st' = adata st
  end.
Proof. apply (wp_run _ _ _ _ _ (copykat_run host args st)). Qed.


(** Line 97 with a layer name. *)
Lemma copykat_named_layer host args st l :
  layer args = Some l →
  wp (copykat host args)
     (λ r st',
        adata st' = adata st ∧ globalenv st' = globalenv st ∧
        r_calls st' = r_calls st ∧
        ∃ e, r = Raise e ∧
             (rpy2_installed host = true → "copykat" ∈ r_library host →
              "stringr" ∈ r_library host → e = NameError "tmp_adata"))
     st.
Proof.
  intros Hl.
  wp_go with congruence.
  all: repeat (split; [done|]); eexists; split; [done|]; congruence.
Qed.

End run_facts.

(** ** Runs that differ in how [X] is stored *)

Section sim_facts.
Context {V : Type} `{!PyValue V}.
Implicit Types (host : Host V) (args : Args V) (st : State V).

Lemma same_up_to_X_fields st1 st2 :
  same_up_to_X st1 st2 →
  globalenv st1 = globalenv st2 ∧ r_calls st1 = r_calls st2 ∧
  log st1 = log st2 ∧ layers (adata st1) = layers (adata st2) ∧
  obs_index (adata st1) = obs_index (adata st2) ∧
  var_index (adata st1) = var_index (adata st2) ∧
  uns (adata st1) = uns (adata st2) ∧ obsm (adata st1) = obsm (adata st2).
Proof. intros [-> _]. done. Qed.

Lemma sim_bind {A B} (R : A → A → Prop) (R' : B → B → Prop)
    (m1 m2 : M V A) (k1 k2 : A → M V B) :
  sim R m1 m2 → (∀ a1 a2, R a1 a2 → sim R' (k1 a1) (k2 a2)) →
  sim R' (bind m1 k1) (bind m2 k2).
Proof.
  intros Hm Hk st1 st2 Hst. unfold bind.
  destruct (Hm st1 st2 Hst) as [Hr Hst'].
  destruct (m1 st1) as [[a1|e1] st1'], (m2 st2) as [[a2|e2] st2']; simpl in *;
    try done.
  by apply Hk.
Qed.

Lemma sim_ret {A} (R : A → A → Prop) a1 a2 : R a1 a2 → sim R (ret a1) (ret a2).
Proof. by intros HR st1 st2 Hst. Qed.

Lemma sim_raise {A} (R : A → A → Prop) e : sim R (raise e) (raise e).
Proof. by intros st1 st2 Hst. Qed.

Lemma sim_lift {A} (r : result A) : sim eq (lift r) (lift r).
Proof. intros st1 st2 Hst. split; [|done]. by destruct r. Qed.

Lemma sim_get_state : sim same_up_to_X get_state get_state.
Proof. by intros st1 st2 Hst. Qed.

Lemma sim_modify (f1 f2 : State V → State V) :
  (∀ st1 st2, same_up_to_X st1 st2 → same_up_to_X (f1 st1) (f2 st2)) →
  sim eq (modify f1) (modify f2).
Proof. intros Hf st1 st2 Hst. split; [done|]. by apply Hf. Qed.

Lemma sim_logging_info msg : sim eq (logging_info msg) (logging_info msg).
Proof. apply sim_modify. by intros st1 st2 [-> ?]. Qed.

Lemma sim_globalenv_setitem name v :
  sim eq (globalenv_setitem name v) (globalenv_setitem name v).
Proof. apply sim_modify. by intros st1 st2 [-> ?]. Qed.

Lemma sim_record_call c : sim eq (record_call c) (record_call c).
Proof. apply sim_modify. by intros st1 st2 [-> ?]. Qed.

Lemma sim_uns_setitem key d : sim eq (uns_setitem key d) (uns_setitem key d).
Proof. apply sim_modify. by intros st1 st2 [-> ?]. Qed.

Lemma sim_obsm_setitem key a : sim eq (obsm_setitem key a) (obsm_setitem key a).
Proof. apply sim_modify. by intros st1 st2 [-> ?]. Qed.

Lemma sim_r_get name : sim eq (r_get name) (r_get name).
Proof.
  intros st1 st2 Hst. unfold r_get.
  destruct (same_up_to_X_fields _ _ Hst) as (<- & _).
  by destruct (globalenv st1 !! name).
Qed.

Lemma sim_globalenv_getitem name :
  sim eq (globalenv_getitem name) (globalenv_getitem name).
Proof.
  intros st1 st2 Hst. unfold globalenv_getitem.
  destruct (same_up_to_X_fields _ _ Hst) as (<- & _).
  by destruct (globalenv st1 !! name).
Qed.

Lemma sim_try {A} (R : A → A → Prop) (m1 m2 : M V A) e :
  sim R m1 m2 → sim R (try_except_ImportError m1 e) (try_except_ImportError m2 e).
Proof.
  intros Hm st1 st2 Hst. unfold try_except_ImportError.
  destruct (Hm st1 st2 Hst) as [Hr Hst'].
  destruct (m1 st1) as [[a1|e1] st1'], (m2 st2) as [[a2|e2] st2']; simpl in *;
    try done.
  subst e2. by destruct e1.
Qed.

End sim_facts.

Ltac sim_go :=
  lazymatch goal with
  | |- sim _ (bind get_state _) (bind get_state _) =>
      eapply sim_bind;
      [apply sim_get_state
      |let H := fresh "Hst" in
       intros ? ? H;
       destruct (same_up_to_X_fields _ _ H) as (_ & _ & _ & _ & <- & <- & _);
       sim_go]
  | |- sim _ (bind _ _) (bind _ _) =>
      eapply sim_bind; [sim_go|intros ? ? <-; sim_go]
  | |- sim _ (ret _) (ret _) =>
      first [apply (sim_ret eq); reflexivity|apply sim_ret; reflexivity]
  | |- sim _ (raise _) (raise _) => first [apply (sim_raise eq)|apply sim_raise]
  | |- sim _ (lift _) (lift _) => apply sim_lift
  | |- sim _ (try_except_ImportError _ _) (try_except_ImportError _ _) =>
      apply sim_try; sim_go
  | |- sim _ (logging_info _) (logging_info _) => apply sim_logging_info
  | |- sim _ (globalenv_setitem _ _) (globalenv_setitem _ _) =>
      apply sim_globalenv_setitem
  | |- sim _ (record_call _) (record_call _) => apply sim_record_call
  | |- sim _ (uns_setitem _ _) (uns_setitem _ _) => apply sim_uns_setitem
  | |- sim _ (obsm_setitem _ _) (obsm_setitem _ _) => apply sim_obsm_setitem
  | |- sim _ (r_get _) (r_get _) => apply sim_r_get
  | |- sim _ (globalenv_getitem _) (globalenv_getitem _) =>
      apply sim_globalenv_getitem
  | |- sim _ (match ?x with _ => _ end) (match ?x with _ => _ end) =>
      destruct x; sim_go
  | |- sim _ (unbound_name _) _ => unfold unbound_name; sim_go
  | |- sim _ (r_error _) _ => unfold r_error; sim_go
  | |- sim _ (import_rpy2 _) _ => unfold import_rpy2; sim_go
  | |- sim _ (importr _ _) _ => unfold importr; sim_go
  | |- sim _ (rpy2py _) _ => unfold rpy2py; sim_go
  | |- sim _ (layers_getitem _ _) _ => unfold layers_getitem; sim_go
  | |- sim _ (r_get_matrix _) _ => unfold r_get_matrix; sim_go
  | |- sim _ (r_get_character _) _ => unfold r_get_character; sim_go
  | |- sim _ (r_get_string _) _ => unfold r_get_string; sim_go
  | |- sim _ (r_get_integer _) _ => unfold r_get_integer; sim_go
  | |- sim _ (r_get_numeric _) _ => unfold r_get_numeric; sim_go
  | |- sim _ (r_script _) _ => unfold r_script; sim_go
  end.

Section sim_copykat.
Context {V : Type} `{!PyValue V}.

(** Reading [X] gives matrices that [prepare_expr] does not tell apart. *)
Lemma sim_read_X :
  sim (λ x1 x2 : matrix V, prepare_expr x1 = prepare_expr x2)
      (bind get_state (λ st, ret (X (adata st))))
      (bind get_state (λ st, ret (X (adata st)))).
Proof. by intros st1 st2 [? ?]. Qed.

Lemma sim_copykat (host : Host V) (args : Args V) :
  sim eq (copykat host args) (copykat host args).
Proof.
  unfold copykat.
  eapply sim_bind; [sim_go|intros ? ? <-].
  eapply sim_bind; [sim_go|intros ? ? <-].
  eapply sim_bind; [sim_go|intros ? ? <-].
  eapply (sim_bind (λ x1 x2, prepare_expr x1 = prepare_expr x2)).
  { destruct (layer args); [sim_go|apply sim_read_X]. }
  intros x1 x2 <-.
  sim_go.
Qed.

End sim_copykat.

(** * The claims about a whole call *)

Lemma result_rel_eq {A} (r1 r2 : result A) : result_rel eq r1 r2 → r1 = r2.
Proof. destruct r1, r2; simpl; by try intros ->. Qed.

(** C4. A call that returns has run the external routine and built the
    offsets and the output matrix from its renamed table.  With [inplace]
    false the two annotation slots are as before and the output matrix is
    returned; with [inplace] true the call returns None, [uns[key_added]]
    holds {"chr_pos": offsets} and [obsm["X_" + key_added]] holds the
    output matrix. *)
Theorem inplace_selects_store_or_return {V} `{!PyValue V}
    (host : Host V) (args : Args V) (st st' : State V)
    (ret : option (ndarray V)) :
  copykat host args st = (Ok ret, st') →
  ∃ call CNAmat m out,
    call ∈ r_calls st' ∧ r_copykat host call = inr CNAmat ∧
    chr_pos (rename_columns CNAmat) = Ok m ∧
    new_cpkat_trans (rename_columns CNAmat) = Ok out ∧
    if inplace args then
      ret = None ∧
      uns (adata st') !! key_added args = Some {[ "chr_pos" := m ]} ∧
      obsm (adata st') !! ("X_" +:+ key_added args) = Some out
    else
      ret = Some out ∧
      uns (adata st') = uns (adata st) ∧ obsm (adata st') = obsm (adata st).
Proof.
  intros Hrun. apply copykat_outcome in Hrun
    as (call & CNAmat & m & out & _ & Hcalls & _ & _ & Hcna & _ & Hm & Hout & Hret).
  exists call, CNAmat, m, out. split.
  { rewrite Hcalls. apply elem_of_app. right. left. }
  repeat (split; [done|]).
  destruct (inplace args).
  - destruct Hret as [-> ->]. simpl. by rewrite !lookup_insert_eq.
  - destruct Hret as [-> ->]. done.
Qed.

Lemma inplace_selects_store_or_return_witness :
  ∃ call CNAmat m out,
    call ∈ r_calls (copykat scenario_host (scenario_args true None None)
                            scenario_state).2 ∧
    r_copykat scenario_host call = inr CNAmat ∧
    chr_pos (rename_columns CNAmat) = Ok m ∧
    new_cpkat_trans (rename_columns CNAmat) = Ok out ∧
    (None : option (ndarray pyval)) = None ∧
    uns (adata (copykat scenario_host (scenario_args true None None)
                        scenario_state).2) !! "cnv"
      = Some {[ "chr_pos" := m ]} ∧
    obsm (adata (copykat scenario_host (scenario_args true None None)
                         scenario_state).2) !! ("X_" +:+ "cnv") = Some out.
Proof.
  apply (inplace_selects_store_or_return scenario_host
           (scenario_args true None None) scenario_state _ None).
  vm_compute. reflexivity.
Defined.

(** C5. A sparse [X] and the dense [X] with the same values give R the
    same matrix (transposing and then densifying equals transposing the
    dense matrix), and the two calls end alike: the same exception or the
    same returned matrix, the same R environment and external calls, and
    the same annotation slots. *)
Theorem sparse_and_dense_inputs_agree {V} `{!PyValue V}
    (host : Host V) (args : Args V) (st : State V) (s : spmatrix V) :
  let sparse_run := copykat host args (with_X (Sparse s) st) in
  let dense_run := copykat host args (with_X (Dense (toarray py_zero s)) st) in
  prepare_expr (Sparse s) = prepare_expr (Dense (toarray py_zero s)) ∧
  sparse_run.1 = dense_run.1 ∧
  globalenv sparse_run.2 = globalenv dense_run.2 ∧
  r_calls sparse_run.2 = r_calls dense_run.2 ∧
  uns (adata sparse_run.2) = uns (adata dense_run.2) ∧
  obsm (adata sparse_run.2) = obsm (adata dense_run.2).
Proof.
  intros sparse_run dense_run.
  assert (prepare_expr (Sparse s) = prepare_expr (Dense (toarray py_zero s)))
    as Hx by apply toarray_sp_T.
  split; [exact Hx|].
  destruct (sim_copykat host args (with_X (Sparse s) st)
              (with_X (Dense (toarray py_zero s)) st)) as [Hr Hst].
  { split; [done|exact Hx]. }
  apply result_rel_eq in Hr.
  destruct (same_up_to_X_fields _ _ Hst) as (? & ? & _ & _ & _ & _ & ? & ?).
  done.
Qed.

(** The sparse [X] of the scenario holds the values of the dense one. *)
Example scenario_sparse_X_values :
  toarray py_zero scenario_sparse_X = scenario_X.
Proof. vm_compute. reflexivity. Qed.

(** C6, at a failing input: with dependencies present and the layer
    "counts" present in the object, naming the layer ends the call with
    NameError for [tmp_adata]; the layer is never read. *)
Theorem named_layer_raises_NameError :
  (copykat scenario_host (scenario_args false (Some "counts") None)
           scenario_state).1
  = Raise (NameError "tmp_adata").
Proof. vm_compute. reflexivity. Qed.



(** C8. The worker count is 1 when the platform is not POSIX, whatever
    the caller asked for and however many cores there are; on POSIX it is
    the caller's value, or the number of cores when the caller gave none.
    Every invocation of the external routine that a call makes passes this
    count, and a call that returns has made one. *)
Theorem worker_count_passed_to_copykat {V} `{!PyValue V}
    (host : Host V) (args : Args V) (st : State V) :
  let w := effective_n_jobs host (n_jobs args) in
  (os_name host ≠ "posix" → w = 1%Z) ∧
  (os_name host = "posix" → w = default (cpu_count host) (n_jobs args)) ∧
  (r_calls (copykat host args st).2 = r_calls st ∨
   ∃ call, r_calls (copykat host args st).2 = (r_calls st ++ [call])%list ∧
           n_cores call = w) ∧
  (∀ ret, (copykat host args st).1 = Ok ret →
          ∃ call, r_calls (copykat host args st).2 = (r_calls st ++ [call])%list ∧
                  n_cores call = w).
Proof.
  intros w. split; [|split; [|split]].
  - intros Hos. unfold w, effective_n_jobs. by case_decide.
  - intros Hos. unfold w, effective_n_jobs. case_decide; [done|].
    by destruct (n_jobs args).
  - destruct (copykat host args st) as [r st'] eqn:Hrun.
    apply copykat_outcome in Hrun. destruct r as [ret|e]; simpl.
    + destruct Hrun as (call & ? & ? & ? & _ & Hcalls & Hn & _). eauto.
    + by destruct Hrun as [_ ?].
  - intros ret Hret.
    destruct (copykat host args st) as [r st'] eqn:Hrun. simpl in *. subst r.
    apply copykat_outcome in Hrun
      as (call & ? & ? & ? & _ & Hcalls & Hn & _). eauto.
Qed.

Lemma worker_count_passed_to_copykat_witness :
  effective_n_jobs (host_with "nt" true ["copykat"; "stringr"] scenario_table)
                   (Some 4%Z) = 1%Z ∧
  effective_n_jobs scenario_host (Some 4%Z) = 4%Z ∧
  effective_n_jobs scenario_host None = 8%Z ∧
  ∃ call,
    r_calls (copykat (host_with "nt" true ["copykat"; "stringr"] scenario_table)
                     (scenario_args false None (Some 4%Z)) scenario_state).2
      = ([] ++ [call])%list ∧
    n_cores call = 1%Z.
Proof.
  split; [|split; [|split]].
  - apply (proj1 (worker_count_passed_to_copykat
             (host_with "nt" true ["copykat"; "stringr"] scenario_table)
             (scenario_args false None (Some 4%Z)) scenario_state)).
    vm_compute. discriminate.
  - apply (proj1 (proj2 (worker_count_passed_to_copykat scenario_host
             (scenario_args false None (Some 4%Z)) scenario_state))).
    reflexivity.
  - apply (proj1 (proj2 (worker_count_passed_to_copykat scenario_host
             (scenario_args false None None) scenario_state))).
    reflexivity.
  - eapply (proj2 (proj2 (proj2 (worker_count_passed_to_copykat
             (host_with "nt" true ["copykat"; "stringr"] scenario_table)
             (scenario_args false None (Some 4%Z)) scenario_state)))).
    vm_compute. reflexivity.
Defined.

(** C9. On the R side every period of a column label of the result table
    becomes a hyphen and nothing else changes: "AAA.CAT.1" becomes
    "AAA-CAT-1", a label without a period stays as it is, and the table
    that Python reads back in a call that returns is the renamed one. *)
Theorem periods_in_column_labels_become_hyphens {V} `{!PyValue V}
    (host : Host V) (args : Args V) (st : State V) :
  str_replace_all "AAA.CAT.1" "." "-" = "AAA-CAT-1" ∧
  (∀ s k, String.get k (str_replace_all s "." "-") =
          (λ a, if Ascii.eqb a "." then "-"%char else a) <$> String.get k s) ∧
  (∀ s, (∀ k, String.get k s ≠ Some "."%char) → str_replace_all s "." "-" = s) ∧
  (∀ df : DataFrame V,
     df_columns (rename_columns df)
       = map (λ c, str_replace_all c "." "-") (df_columns df) ∧
     df_index (rename_columns df) = df_index df ∧
     df_data (rename_columns df) = df_data df) ∧
  (∀ ret, (copykat host args st).1 = Ok ret →
     ∃ call CNAmat,
       call ∈ r_calls (copykat host args st).2 ∧
       r_copykat host call = inr CNAmat ∧
       globalenv (copykat host args st).2 !! "copyKAT_result"
         = Some (RDataFrame (rename_columns CNAmat))).
Proof.
  split; [reflexivity|]. split; [apply str_replace_all_get|].
  split; [apply str_replace_all_no_period|]. split; [done|].
  intros ret Hret.
  destruct (copykat host args st) as [r st'] eqn:Hrun. simpl in *. subst r.
  apply copykat_outcome in Hrun
    as (call & CNAmat & ? & ? & _ & Hcalls & _ & _ & Hcna & Hres & _).
  exists call, CNAmat. split; [|done].
  rewrite Hcalls. apply elem_of_app. right. left.
Qed.

Lemma periods_in_column_labels_become_hyphens_witness :
  str_replace_all "c1" "." "-" = "c1" ∧
  ∃ call CNAmat,
    call ∈ r_calls (copykat (host_with "posix" true ["copykat"; "stringr"] binned_table)
                            (scenario_args false None None) scenario_state).2 ∧
    r_copykat (host_with "posix" true ["copykat"; "stringr"] binned_table) call
      = inr CNAmat ∧
    globalenv (copykat (host_with "posix" true ["copykat"; "stringr"] binned_table)
                       (scenario_args false None None) scenario_state).2
      !! "copyKAT_result"
      = Some (RDataFrame (rename_columns CNAmat)).
Proof.
  pose proof (periods_in_column_labels_become_hyphens
                (host_with "posix" true ["copykat"; "stringr"] binned_table)
                (scenario_args false None None) scenario_state)
    as (_ & _ & Hsame & _ & Hrun).
  split.
  - apply Hsame. intros [|[|k]]; simpl; discriminate.
  - eapply Hrun. vm_compute. reflexivity.
Defined.



(** * Further properties of the conversions *)

(** ** The matrix handed to R *)

Lemma ndarray_init_wf {A} n m (f : nat → nat → A) :
  ndarray_wf (ndarray_init n m f).
Proof.
  split; simpl.
  - by rewrite length_map, length_seq.
  - apply Forall_forall. intros r Hr.
    apply list_elem_of_fmap in Hr as (i & -> & _).
    by rewrite length_map, length_seq.
Qed.

Lemma item_init {A} n m (f : nat → nat → A) i j :
  i < n → j < m → item (ndarray_init n m f) i j = Some (f i j).
Proof.
  intros Hi Hj. unfold item, ndarray_init. simpl.
  rewrite list_lookup_fmap, lookup_seq_lt by done. simpl.
  by rewrite list_lookup_fmap, lookup_seq_lt.
Qed.

Lemma item_T {A} (a : ndarray A) i j :
  ndarray_wf a → item (T a) j i = item a i j.
Proof.
  intros [Hn Hm]. unfold item, T; simpl.
  destruct (decide (j < (shape a).2)) as [Hj|Hj].
  - rewrite list_lookup_fmap, lookup_seq_lt by done. simpl.
    apply column_lookup. eapply Forall_impl; [exact Hm|].
    simpl. intros r' ->. lia.
  - rewrite list_lookup_fmap, lookup_seq_ge by lia. simpl.
    destruct (rows a !! i) as [r|] eqn:E; simpl; [|done].
    symmetry. apply lookup_ge_None.
    rewrite Forall_forall in Hm. rewrite (Hm r); [lia|].
    by eapply list_elem_of_lookup_2.
Qed.

(** X7. What crosses into R is genes by cells: its shape is that of [X]
    swapped and its entry (gene, cell) is the entry (cell, gene) of [X],
    for a dense [X] as for a sparse one, where an entry that is not
    stored is zero. *)
Theorem prepare_expr_is_genes_by_cells {V} `{!PyValue V} :
  (∀ a : ndarray V, ndarray_wf a →
     shape (prepare_expr (Dense a)) = prod_swap (shape a) ∧
     ndarray_wf (prepare_expr (Dense a)) ∧
     ∀ gene cell, item (prepare_expr (Dense a)) gene cell = item a cell gene) ∧
  (∀ s : spmatrix V,
     shape (prepare_expr (Sparse s)) = prod_swap (sp_shape s) ∧
     ndarray_wf (prepare_expr (Sparse s)) ∧
     ∀ gene cell, cell < (sp_shape s).1 → gene < (sp_shape s).2 →
       item (prepare_expr (Sparse s)) gene cell
       = Some (default py_zero (sp_data s !! (cell, gene)))).
Proof.
  split.
  - intros a Hwf. split; [done|]. split; [by apply T_wf|].
    intros gene cell. by apply item_T.
  - intros [[n m] d]. simpl. split; [done|]. split; [apply ndarray_init_wf|].
    intros gene cell Hcell Hgene. unfold toarray. simpl.
    rewrite item_init by done.
    by rewrite <- (lookup_kmap prod_swap d (cell, gene)).
Qed.

Lemma prepare_expr_is_genes_by_cells_witness :
  item (prepare_expr (Sparse scenario_sparse_X)) 3 2
  = Some (default py_zero (sp_data scenario_sparse_X !! (2, 3))).
Proof.
  apply (proj2 prepare_expr_is_genes_by_cells scenario_sparse_X);
    vm_compute; lia.
Defined.

(** ** The output matrix: missing metadata columns *)

Lemma missing_labels_nil_inv (labels cols : list string) :
  missing_labels labels cols = [] → Forall (λ l, l ∈ cols) labels.
Proof.
  unfold missing_labels. intros Hnil. apply Forall_forall. intros l Hl.
  destruct (decide (l ∈ cols)) as [|Hc]; [done|].
  assert (l ∈ filter (λ l, l ∉ cols) labels) as Hin
    by (by apply list_elem_of_filter).
  rewrite Hnil in Hin. by apply not_elem_of_nil in Hin.
Qed.

(** X8. The output matrix is built exactly when the table has all of
    chrom, chrompos and abspos among its column labels; otherwise the
    conversion raises KeyError with the absent ones, in that order, and
    nothing else. *)
Theorem new_cpkat_trans_needs_metadata_columns {V} (df : DataFrame V) :
  ((∃ out, new_cpkat_trans df = Ok out) ↔
   Forall (λ l, l ∈ df_columns df) metadata_columns) ∧
  (¬ Forall (λ l, l ∈ df_columns df) metadata_columns →
   new_cpkat_trans df
   = Raise (KeyError (filter (λ l, l ∉ df_columns df) metadata_columns))).
Proof.
  unfold new_cpkat_trans, new_cpkat, df_drop.
  destruct (missing_labels metadata_columns (df_columns df)) as [|l ls] eqn:Hmiss.
  - apply missing_labels_nil_inv in Hmiss. split; [|done].
    split; [done|]. intros _. by eexists.
  - assert (¬ Forall (λ l, l ∈ df_columns df) metadata_columns) as Hnot.
    { intros Hall%missing_labels_nil. congruence. }
    split; [split; [by intros [? ?]|done]|].
    intros _. simpl. by rewrite <- Hmiss.
Qed.

Lemma new_cpkat_trans_needs_metadata_columns_witness :
  new_cpkat_trans (mkDataFrame [PyStr "1"] ["chrom"; "c1"; "c2"]
                               [[PyInt 1; PyInt 7; PyInt 8]])
  = Raise (KeyError ["chrompos"; "abspos"]).
Proof.
  apply (proj2 (new_cpkat_trans_needs_metadata_columns
                  (mkDataFrame [PyStr "1"] ["chrom"; "c1"; "c2"]
                               [[PyInt 1; PyInt 7; PyInt 8]]))).
  intros H. apply Forall_cons in H as [_ H]. apply Forall_cons in H as [H _].
  vm_compute in H.
  repeat (apply elem_of_cons in H as [H|H]; [discriminate H|]).
  by apply not_elem_of_nil in H.
Defined.

(** ** The chromosome offsets: when they are built *)

Lemma first_occurrences_is_first {V} `{!EqDecision V}
    (seen : list (list V)) (l : list (V * list V)) p r :
  (p, r) ∈ first_occurrences seen l →
  ∃ i, l !! i = Some (p, r) ∧
       ∀ i' pr', i' < i → l !! i' = Some pr' → pr'.2 ≠ r.
Proof.
  revert seen. induction l as [|[p0 r0] l IH]; intros seen; simpl;
    [by inversion 1|].
  assert (∀ seen', r0 ≠ r → (p, r) ∈ first_occurrences seen' l →
          ∃ i, ((p0, r0) :: l) !! i = Some (p, r) ∧
               ∀ i' pr', i' < i → ((p0, r0) :: l) !! i' = Some pr' → pr'.2 ≠ r)
    as Hlater.
  { intros seen' Hne (i & Hi & Hfirst)%IH. exists (S i). split; [done|].
    intros [|i'] pr' Hlt; simpl.
    - by intros [= <-].
    - apply Hfirst. lia. }
  case_decide as Hr0.
  - intros Hin. apply (Hlater seen); [|done].
    apply first_occurrences_elem_of in Hin as [_ Hseen]. by intros ->.
  - intros [[= -> ->]|Hin]%elem_of_cons.
    + exists 0. split; [done|]. intros; lia.
    + apply (Hlater (r0 :: seen)); [|done].
      apply first_occurrences_elem_of in Hin as [_ Hseen].
      intros ->. apply Hseen. left.
Qed.

Lemma compress_two {A} (mask : list bool) (l : list A) k1 k2 :
  k1 < k2 → mask !! k1 = Some true → mask !! k2 = Some true →
  length l = length mask →
  ∃ x y rest, compress mask l = x :: y :: rest.
Proof.
  revert l k1 k2. induction mask as [|b mask IH]; intros [|x l] k1 k2; simpl;
    try done.
  intros Hlt Hk1 Hk2 [=Hl]. destruct k2 as [|k2]; [lia|]. simpl in Hk2.
  destruct k1 as [|k1]; simpl in Hk1.
  - injection Hk1 as ->.
    destruct (lookup_lt_is_Some_2 l k2) as [y Hy].
    { rewrite Hl. by eapply lookup_lt_Some. }
    pose proof (compress_lookup_true mask l k2 y Hl Hk2 Hy) as Hin.
    destruct (compress mask l) as [|y' rest]; [by apply not_elem_of_nil in Hin|].
    by exists x, y', rest.
  - destruct (IH l k1 k2) as (x' & y' & rest & ->); [lia|done|done|done|].
    destruct b; by eexists _, _, _.
Qed.

Section more_offsets.
Context {V : Type} `{!PyValue V}.
Implicit Types (df : DataFrame V) (m acc : gmap string Z).

Lemma chr_pos_dict_never_KeyError acc ts labels :
  chr_pos_dict acc ts ≠ Raise (KeyError labels).
Proof.
  revert acc. induction ts as [|t ts IH]; intros acc; simpl; [done|].
  destruct t as [|p [|c [|? ?]]]; try done.
  destruct (py_int p); [apply IH|done].
Qed.

Lemma chr_pos_dict_pairs_result acc (ts : list (list V)) :
  Forall (λ t, ∃ p c, t = [p; c]) ts →
  (∃ m, chr_pos_dict acc ts = Ok m) ∨
  chr_pos_dict acc ts = Raise (ValueError "int() cannot convert the row label").
Proof.
  intros Hts. revert acc.
  induction Hts as [|t ts (p & c & ->) _ IH]; intros acc; simpl.
  - left. by exists acc.
  - destruct (py_int p); [apply IH|by right].
Qed.

(** With one column labelled "chrom", the tuples of the comprehension are
    the first occurrences among the pairs of row label and chromosome
    cell. *)
Lemma chr_pos_unique_column df k :
  DataFrame_wf df → (∀ j, df_columns df !! j = Some "chrom" ↔ j = k) →
  chr_pos df =
  chr_pos_dict ∅
    (uncurry cons <$>
     first_occurrences []
       (zip (df_index df) ((λ c, [c]) <$> column k (df_data df)))).
Proof.
  intros [Hn Hm] Hk.
  assert (df_columns df !! k = Some "chrom") as Hk' by by apply Hk.
  unfold chr_pos, df_loc.
  rewrite missing_labels_nil
    by (repeat constructor; by eapply list_elem_of_lookup_2).
  simpl. unfold df_itertuples, df_drop_duplicates. simpl.
  rewrite zip_with_fst_snd. do 4 f_equal.
  unfold column. clear Hn. induction Hm as [|r rs Hr _ IH]; simpl; [done|].
  destruct (lookup_lt_is_Some_2 r k) as [x Hx].
  { rewrite Hr. by eapply lookup_lt_Some. }
  rewrite Hx. simpl. rewrite IH, app_nil_r. f_equal.
  apply (compress_single _ _ k); [| | |done].
  - unfold isin. intros j. rewrite list_lookup_fmap.
    destruct (df_columns df !! j) as [c|] eqn:Hc; simpl; [|done].
    intros [= Hin%bool_decide_eq_true]. apply list_elem_of_singleton in Hin as ->.
    by apply Hk.
  - unfold isin. by rewrite list_lookup_fmap, Hk'.
  - unfold isin. by rewrite length_map.
Qed.

(** X9. The offsets raise KeyError for "chrom" exactly when no column of
    the table is labelled "chrom". *)
Theorem chr_pos_needs_chrom_column df :
  chr_pos df = Raise (KeyError ["chrom"]) ↔ "chrom" ∉ df_columns df.
Proof.
  unfold chr_pos, df_loc, missing_labels. rewrite filter_cons, filter_nil.
  split.
  - case_decide as Hc; [done|]. simpl. intros Hdict Hin.
    by apply chr_pos_dict_never_KeyError in Hdict.
  - intros Hc. by case_decide.
Qed.

(** X10. With one column labelled "chrom", the offsets are built exactly
    when [int] accepts the label of the first row of every chromosome;
    the labels of the later rows of a chromosome are not converted.  When
    they are not built, the exception is the ValueError of [int]. *)
Theorem chr_pos_converts_first_row_labels_only df k :
  DataFrame_wf df → (∀ j, df_columns df !! j = Some "chrom" ↔ j = k) →
  ((∃ m, chr_pos df = Ok m) ↔
   ∀ i p c,
     df_index df !! i = Some p → column k (df_data df) !! i = Some c →
     (∀ i', i' < i → column k (df_data df) !! i' ≠ Some c) →
     is_Some (py_int p)) ∧
  ((∃ m, chr_pos df = Ok m) ∨
   chr_pos df = Raise (ValueError "int() cannot convert the row label")).
Proof.
  intros Hwf Hk. rewrite (chr_pos_unique_column df k Hwf Hk).
  set (col := column k (df_data df)).
  set (l := zip (df_index df) ((λ c, [c]) <$> col)).
  assert (∀ p r, (p, r) ∈ first_occurrences [] l → ∃ c, r = [c]) as Hsingle.
  { intros p r [Hin _]%first_occurrences_elem_of.
    apply elem_of_zip_r, list_elem_of_fmap in Hin as (c & -> & _). by exists c. }
  assert (Forall (λ t, ∃ p c, t = [p; c])
                 (uncurry cons <$> first_occurrences [] l)) as Hshape.
  { apply Forall_fmap, Forall_forall. intros [p r] Hin.
    destruct (Hsingle p r Hin) as [c ->]. by exists p, c. }
  split; [|by apply chr_pos_dict_pairs_result].
  split.
  - intros [m Hm] i p c Hp Hc Hfirst.
    apply chr_pos_dict_shape in Hm. rewrite Forall_forall in Hm.
    destruct (Hm [p; c]) as (? & ? & [= <- <-] & Hint); [|done].
    apply (list_elem_of_fmap_2 (uncurry cons) _ (p, [c])).
    apply (first_occurrences_first [] l i); [|apply not_elem_of_nil|].
    + unfold l. apply lookup_zip_with_Some. exists p, [c].
      split; [done|]. split; [done|]. by rewrite list_lookup_fmap, Hc.
    + intros i' [p' r'] Hlt Hl. unfold l in Hl.
      apply lookup_zip_with_Some in Hl as (? & ? & [= <- <-] & _ & Hr').
      rewrite list_lookup_fmap in Hr'. simpl.
      destruct (col !! i') as [c'|] eqn:Hc'; [|done].
      injection Hr' as <-. intros [= ->]. by apply (Hfirst i').
  - intros Hint. apply chr_pos_dict_total.
    apply Forall_fmap, Forall_forall. intros [p r] Hin.
    destruct (Hsingle p r Hin) as [c ->]. exists p, c. split; [done|].
    apply first_occurrences_is_first in Hin as (i & Hi & Hfirst).
    unfold l in Hi.
    apply lookup_zip_with_Some in Hi as (? & ? & [= <- <-] & Hp & Hc).
    rewrite list_lookup_fmap in Hc.
    destruct (col !! i) as [c'|] eqn:Hc'; [|done]. injection Hc as ->.
    apply (Hint i p c Hp Hc'). intros i' Hlt Hi'.
    destruct (lookup_lt_is_Some_2 (df_index df) i') as [p' Hp'].
    { apply lookup_lt_Some in Hp. lia. }
    apply (Hfirst i' (p', [c])); [done| |done].
    unfold l. apply lookup_zip_with_Some. exists p', [c].
    split; [done|]. split; [done|]. by rewrite list_lookup_fmap, Hi'.
Qed.

(** X11. When two columns of a table with at least one row are labelled
    "chrom", the tuples have more than two entries and the offsets raise
    the ValueError of the unpacking. *)
Theorem chr_pos_two_chrom_columns df k1 k2 :
  DataFrame_wf df → k1 < k2 →
  df_columns df !! k1 = Some "chrom" → df_columns df !! k2 = Some "chrom" →
  df_index df ≠ [] →
  chr_pos df = Raise (ValueError "cannot unpack the tuple into (pos, chrom)").
Proof.
  intros [Hn Hm] Hlt Hk1 Hk2 Hrows. unfold chr_pos, df_loc.
  rewrite missing_labels_nil
    by (repeat constructor; by eapply list_elem_of_lookup_2).
  simpl. unfold df_itertuples, df_drop_duplicates. simpl.
  rewrite zip_with_fst_snd.
  destruct (df_index df) as [|p idx]; [done|].
  destruct (df_data df) as [|r rs]; [done|].
  apply Forall_cons in Hm as [Hr _]. simpl.
  destruct (compress_two (isin ["chrom"] (df_columns df)) r k1 k2)
    as (x & y & rest & Hpick); [done| | |by unfold isin; rewrite length_map|].
  - unfold isin. by rewrite list_lookup_fmap, Hk1.
  - unfold isin. by rewrite list_lookup_fmap, Hk2.
  - rewrite Hpick. reflexivity.
Qed.

End more_offsets.

Lemma chr_pos_needs_chrom_column_witness :
  chr_pos (mkDataFrame [PyStr "1"] ["chrompos"; "abspos"; "c1"]
                       [[PyInt 10; PyInt 10; PyInt 7]])
  = Raise (KeyError ["chrom"]).
Proof.
  apply (proj2 (chr_pos_needs_chrom_column
                  (mkDataFrame [PyStr "1"] ["chrompos"; "abspos"; "c1"]
                               [[PyInt 10; PyInt 10; PyInt 7]]))).
  simpl. intros H.
  repeat (apply elem_of_cons in H as [H|H]; [discriminate H|]).
  by apply not_elem_of_nil in H.
Defined.

Lemma chr_pos_converts_first_row_labels_only_witness :
  ((∃ m, chr_pos relabelled_table = Ok m) ↔
   ∀ i p c,
     df_index relabelled_table !! i = Some p →
     column 0 (df_data relabelled_table) !! i = Some c →
     (∀ i', i' < i → column 0 (df_data relabelled_table) !! i' ≠ Some c) →
     is_Some (py_int p)) ∧
  ((∃ m, chr_pos relabelled_table = Ok m) ∨
   chr_pos relabelled_table
   = Raise (ValueError "int() cannot convert the row label")).
Proof.
  apply (chr_pos_converts_first_row_labels_only relabelled_table 0).
  - split; [reflexivity|repeat constructor].
  - intros j. split; [|by intros ->].
    destruct j as [|[|[|[|j]]]]; vm_compute; congruence.
Defined.

(** The table with the label "bin-b" on a later bin gives its offsets. *)
Example chr_pos_relabelled_table :
  chr_pos relabelled_table = Ok {[ "chr1" := 1%Z; "chr2" := 3%Z ]}.
Proof. vm_compute. reflexivity. Qed.

Lemma chr_pos_two_chrom_columns_witness :
  chr_pos two_chrom_table
  = Raise (ValueError "cannot unpack the tuple into (pos, chrom)").
Proof.
  apply (chr_pos_two_chrom_columns two_chrom_table 0 3).
  - split; [reflexivity|repeat constructor].
  - lia.
  - reflexivity.
  - reflexivity.
  - discriminate.
Defined.

(** ** The run past the dependency probe *)

Section more_runs.
Context {V : Type} `{!PyValue V}.
Implicit Types (host : Host V) (args : Args V) (st : State V).

(** Past the probe and the dimnames, the outcome is decided by the external
    routine and the two conversions of its table. *)
Lemma copykat_tail host args st rn cn :
  rpy2_installed host = true → "copykat" ∈ r_library host →
  "stringr" ∈ r_library host → layer args = None →
  r_dimnames "1" (shape (prepare_expr (X (adata st)))).1 (var_index (adata st))
    = Ok rn →
  r_dimnames "2" (shape (prepare_expr (X (adata st)))).2 (obs_index (adata st))
    = Ok cn →
  wp (copykat host args)
     (λ r st',
        r_calls st' = (r_calls st ++ [copykat_arguments host args st rn cn])%list ∧
        match r_copykat host (copykat_arguments host args st rn cn) with
        | inl msg => r = Raise (RRuntimeError msg) ∧ adata st' = adata st
        | inr CNAmat =>
            match chrom_pos (rename_columns CNAmat) with
            | Raise e => r = Raise e ∧ adata st' = adata st
            | Ok d =>
                match new_cpkat_trans (rename_columns CNAmat) with
                | Raise e => r = Raise e ∧ adata st' = adata st
                | Ok out =>
                    if inplace args then
                      r = Ok None ∧
                      adata st' =
                        mkAnnData (X (adata st)) (layers (adata st))
                          (obs_index (adata st)) (var_index (adata st))
                          (<[key_added args := d]> (uns (adata st)))
                          (<["X_" +:+ key_added args := out]> (obsm (adata st)))
                    else r = Ok (Some out) ∧ adata st' = adata st
                end
            end
        end)
     st.
Proof.
  intros Hrpy2 Hcopykat Hstringr Hlayer Hrn Hcn. unfold copykat_arguments.
  repeat (wp_step; wp_simpl; simplify_eq).
  all: repeat split; by destruct (adata st).
Qed.

(** What every run leaves in the log and in R's global environment, and
    what a run that returns has passed on its way. *)
Lemma copykat_trace host args st :
  wp (copykat host args)
     (λ r st',
        (∀ name, name ∉ r_names → globalenv st' !! name = globalenv st !! name) ∧
        (∃ n, log st' =
              (log st ++ take n ["Preparing R objects"; "Running copyKAT"])%list) ∧
        (∀ ret, r = Ok ret →
           rpy2_installed host = true ∧ "copykat" ∈ r_library host ∧
           "stringr" ∈ r_library host ∧
           log st' = (log st ++ ["Preparing R objects"; "Running copyKAT"])%list ∧
           ∃ rn cn,
             r_dimnames "1" (shape (prepare_expr (X (adata st)))).1
                        (var_index (adata st)) = Ok rn ∧
             r_dimnames "2" (shape (prepare_expr (X (adata st)))).2
                        (obs_index (adata st)) = Ok cn))
     st.
Proof.
  wp_go.
  all: split;
    [intros name Hname;
     repeat (rewrite lookup_insert_ne;
             [|intros <-; apply Hname; unfold r_names;
               repeat first [left|right]]);
     reflexivity|].
  all: split;
    [first [exists 0; simpl; by rewrite app_nil_r
           |exists 1; reflexivity
           |exists 2; simpl; by rewrite <- app_assoc]|].
  all: intros ret' [=]; subst.
  all: rewrite <- app_assoc; simpl; eauto 10.
Qed.

End more_runs.

(** * Further properties of a call *)

Lemma r_dimnames_Ok (axis : string) (extent : nat) (names : list string) x :
  r_dimnames axis extent names = Ok x → names ≠ [] →
  x = Some names ∧ length names = extent.
Proof.
  unfold r_dimnames. intros Hx Hnames.
  case_decide as H0; [by destruct names|].
  case_decide; [|done]. by injection Hx as <-.
Qed.

Section call_facts.
Context {V : Type} `{!PyValue V}.
Implicit Types (host : Host V) (args : Args V) (st : State V).

(** X1. A call that returns has invoked the external routine once: on
    the transposed matrix with the gene names as row names and the cell
    names as column names, with the caller's [gene_ids], [min_genes_chr],
    [segmentation_cut], [s_name] and [distance], a window of 25, no normal
    cell names and no segment file. *)
Theorem copykat_invokes_routine_once_with_its_arguments host args st st' ret :
  copykat host args st = (Ok ret, st') →
  var_index (adata st) ≠ [] → obs_index (adata st) ≠ [] →
  r_calls st' =
    (r_calls st ++
     [copykat_arguments host args st (Some (var_index (adata st)))
                        (Some (obs_index (adata st)))])%list ∧
  length (var_index (adata st)) = (shape (prepare_expr (X (adata st)))).1 ∧
  length (obs_index (adata st)) = (shape (prepare_expr (X (adata st)))).2.
Proof.
  intros Hrun Hvar Hobs.
  pose proof (wp_run _ _ _ _ _ (copykat_trace host args st) Hrun)
    as (_ & _ & Hret).
  destruct (Hret ret eq_refl) as (Hrpy2 & Hck & Hstr & _ & rn & cn & Hrn & Hcn).
  pose proof (copykat_outcome _ _ _ _ _ Hrun) as (? & ? & ? & ? & Hlayer & _).
  pose proof (wp_run _ _ _ _ _
                (copykat_tail host args st rn cn Hrpy2 Hck Hstr Hlayer Hrn Hcn)
                Hrun) as [Hcalls _].
  apply r_dimnames_Ok in Hrn as [-> ?]; [|done].
  apply r_dimnames_Ok in Hcn as [-> ?]; [|done].
  done.
Qed.

(** X2. When the external routine stops with an error, the call raises
    RRuntimeError with the routine's message, after that one invocation,
    and the AnnData object is as before. *)
Theorem external_failure_propagates host args st rn cn msg :
  rpy2_installed host = true → "copykat" ∈ r_library host →
  "stringr" ∈ r_library host → layer args = None →
  r_dimnames "1" (shape (prepare_expr (X (adata st)))).1 (var_index (adata st))
    = Ok rn →
  r_dimnames "2" (shape (prepare_expr (X (adata st)))).2 (obs_index (adata st))
    = Ok cn →
  r_copykat host (copykat_arguments host args st rn cn) = inl msg →
  (copykat host args st).1 = Raise (RRuntimeError msg) ∧
  adata (copykat host args st).2 = adata st ∧
  r_calls (copykat host args st).2 =
    (r_calls st ++ [copykat_arguments host args st rn cn])%list.
Proof.
  intros Hrpy2 Hck Hstr Hlayer Hrn Hcn Hfail.
  pose proof (copykat_tail host args st rn cn Hrpy2 Hck Hstr Hlayer Hrn Hcn)
    as Hwp.
  unfold wp in Hwp. rewrite Hfail in Hwp. by destruct Hwp as (? & ? & ?).
Qed.


(** X4. With [inplace] set, calling again after a call that returned
    returns again and leaves the AnnData object as the first call left
    it. *)
Theorem inplace_call_twice_is_call_once host args st st1 ret :
  copykat host args st = (Ok ret, st1) → inplace args = true →
  ∃ st2, copykat host args st1 = (Ok None, st2) ∧ adata st2 = adata st1.
Proof.
  intros Hrun Hin.
  pose proof (wp_run _ _ _ _ _ (copykat_trace host args st) Hrun)
    as (_ & _ & Htrace).
  destruct (Htrace ret eq_refl)
    as (Hrpy2 & Hck & Hstr & _ & rn & cn & Hrn & Hcn).
  pose proof (copykat_outcome _ _ _ _ _ Hrun) as (? & ? & ? & ? & Hlayer & _).
  pose proof (wp_run _ _ _ _ _
                (copykat_tail host args st rn cn Hrpy2 Hck Hstr Hlayer Hrn Hcn)
                Hrun) as [_ Htail].
  destruct (r_copykat host (copykat_arguments host args st rn cn))
    as [msg|CNAmat] eqn:Hcna; [by destruct Htail|].
  destruct (chrom_pos (rename_columns CNAmat)) as [d|e] eqn:Hd;
    [|by destruct Htail].
  destruct (new_cpkat_trans (rename_columns CNAmat)) as [out|e] eqn:Hout;
    [|by destruct Htail].
  rewrite Hin in Htail. destruct Htail as [_ Had].
  assert (copykat_arguments host args st1 rn cn
          = copykat_arguments host args st rn cn) as Hargs.
  { unfold copykat_arguments. by rewrite Had. }
  destruct (copykat host args st1) as [r2 st2] eqn:Hrun2.
  assert (r_dimnames "1" (shape (prepare_expr (X (adata st1)))).1
            (var_index (adata st1)) = Ok rn) as Hrn' by (by rewrite Had).
  assert (r_dimnames "2" (shape (prepare_expr (X (adata st1)))).2
            (obs_index (adata st1)) = Ok cn) as Hcn' by (by rewrite Had).
  pose proof (wp_run _ _ _ _ _
                (copykat_tail host args st1 rn cn Hrpy2 Hck Hstr Hlayer Hrn' Hcn')
                Hrun2) as [_ Htail2].
  rewrite Hargs, Hcna, Hd, Hout, Hin in Htail2. destruct Htail2 as [-> Had2].
  exists st2. split; [done|]. rewrite Had2, Had. simpl.
  by rewrite !insert_insert_eq.
Qed.


(** X6. A call logs "Preparing R objects" and then "Running copyKAT" and
    nothing else: every call appends a prefix of the two messages to the
    log, and a call that returns has appended both. *)
Theorem copykat_logs_its_two_messages host args st :
  (∃ n, log (copykat host args st).2 =
        (log st ++ take n ["Preparing R objects"; "Running copyKAT"])%list) ∧
  ((∃ ret, (copykat host args st).1 = Ok ret) →
   log (copykat host args st).2 =
     (log st ++ ["Preparing R objects"; "Running copyKAT"])%list).
Proof.
  pose proof (copykat_trace host args st) as (_ & Hlog & Hret).
  split; [exact Hlog|]. intros [ret Hr].
  by destruct (Hret ret Hr) as (_ & _ & _ & ? & _).
Qed.

End call_facts.

Lemma copykat_invokes_routine_once_with_its_arguments_witness :
  r_calls (copykat scenario_host (scenario_args true None (Some 2%Z))
                   scenario_state).2 =
    ([] ++
     [copykat_arguments scenario_host (scenario_args true None (Some 2%Z))
        scenario_state (Some ["G1"; "G2"; "G3"; "G4"]) (Some ["c1"; "c2"; "c3"])])%list ∧
  4 = 4 ∧ 3 = 3.
Proof.
  eapply (copykat_invokes_routine_once_with_its_arguments scenario_host
            (scenario_args true None (Some 2%Z)) scenario_state).
  - vm_compute. reflexivity.
  - discriminate.
  - discriminate.
Defined.

Lemma external_failure_propagates_witness :
  (copykat failing_host (scenario_args true None None) scenario_state).1
    = Raise (RRuntimeError "copykat stopped") ∧
  adata (copykat failing_host (scenario_args true None None) scenario_state).2
    = adata scenario_state ∧
  r_calls (copykat failing_host (scenario_args true None None) scenario_state).2
    = ([] ++ [copykat_arguments failing_host (scenario_args true None None)
                scenario_state (Some ["G1"; "G2"; "G3"; "G4"])
                (Some ["c1"; "c2"; "c3"])])%list.
Proof.
  apply (external_failure_propagates failing_host (scenario_args true None None)
           scenario_state).
  - reflexivity.
  - vm_compute. left.
  - vm_compute. right. left.
  - reflexivity.
  - vm_compute. reflexivity.
  - vm_compute. reflexivity.
  - reflexivity.
Defined.

Lemma inplace_call_twice_is_call_once_witness :
  ∃ st2,
    copykat scenario_host (scenario_args true None None)
      (copykat scenario_host (scenario_args true None None) scenario_state).2
      = (Ok None, st2) ∧
    adata st2 =
      adata (copykat scenario_host (scenario_args true None None) scenario_state).2.
Proof.
  apply (inplace_call_twice_is_call_once scenario_host
           (scenario_args true None None) scenario_state _ None).
  - vm_compute. reflexivity.
  - reflexivity.
Defined.


Lemma copykat_logs_its_two_messages_witness :
  log (copykat scenario_host (scenario_args false None None) scenario_state).2
  = ([] ++ ["Preparing R objects"; "Running copyKAT"])%list.
Proof.
  apply (proj2 (copykat_logs_its_two_messages scenario_host
                  (scenario_args false None None) scenario_state)).
  eexists. vm_compute. reflexivity.
Defined.
